(** * sqlalchemy_boilerplate: engine and session lifecycle

    A shallow embedding of [sqlalchemy_boilerplate/boilerplate.py]: the
    classes [Boilerplate] (blocking) and [AsyncBoilerplate] (non-blocking).

    The Python methods run in a small state-and-exception monad over the
    instance's attributes and a [World] that records every call made into
    SQLAlchemy and the logger.  Whether such a call raises is decided by the
    world's oracle, so that every statement below is about all behaviours of
    the database library. *)

From Stdlib Require Import String Ascii List Bool Arith Lia.
Import ListNotations.
Open Scope string_scope.
Open Scope list_scope.
Open Scope nat_scope.

(** ** Strings

    A Python [str] is modelled by [string]; each [ascii] stands for one code
    point in the range 0..255. *)

Definition code (c : ascii) : nat := nat_of_ascii c.

Definition is_ascii_alpha (c : ascii) : bool :=
  ((65 <=? code c) && (code c <=? 90)) || ((97 <=? code c) && (code c <=? 122)).

Definition is_ascii_digit (c : ascii) : bool :=
  (48 <=? code c) && (code c <=? 57).

(** [urllib.parse.scheme_chars]: letters, digits and ["+-."]. *)
Definition scheme_chars (c : ascii) : bool :=
  is_ascii_alpha c || is_ascii_digit c
  || (code c =? 43) || (code c =? 45) || (code c =? 46).

Definition lower_char (c : ascii) : ascii :=
  if (65 <=? code c) && (code c <=? 90) then ascii_of_nat (code c + 32) else c.

(** [str.lower], on the characters it is applied to here (a scheme only
    holds [scheme_chars]). *)
Fixpoint lower (s : string) : string :=
  match s with
  | EmptyString => EmptyString
  | String c s' => String (lower_char c) (lower s')
  end.

Fixpoint all_chars (p : ascii -> bool) (s : string) : bool :=
  match s with
  | EmptyString => true
  | String c s' => p c && all_chars p s'
  end.

(** [s.lstrip(_WHATWG_C0_CONTROL_OR_SPACE)]: drop leading characters up to
    and including the space. *)
Fixpoint lstrip_c0 (s : string) : string :=
  match s with
  | EmptyString => EmptyString
  | String c s' => if code c <=? 32 then lstrip_c0 s' else s
  end.

(** Removal of [_UNSAFE_URL_BYTES_TO_REMOVE]: tab, carriage return, newline. *)
Fixpoint remove_unsafe (s : string) : string :=
  match s with
  | EmptyString => EmptyString
  | String c s' =>
      if (code c =? 9) || (code c =? 13) || (code c =? 10)
      then remove_unsafe s' else String c (remove_unsafe s')
  end.

(** The slice [s[n:]]. *)
Fixpoint slice_from (n : nat) (s : string) : string :=
  match n, s with
  | O, _ => s
  | S _, EmptyString => EmptyString
  | S n', String _ s' => slice_from n' s'
  end.

Definition first_is_alpha (s : string) : bool :=
  match s with
  | EmptyString => false
  | String c _ => is_ascii_alpha c
  end.

Definition dquote : string := String (ascii_of_nat 34) EmptyString.

(** ** What [urllib.parse.urlsplit] reads in a URL

    [urlsplit] strips the URL of leading C0 controls and spaces and of tabs
    and line breaks.  The text before the first colon is the scheme when it
    starts with a letter and holds [scheme_chars] only; it is returned in
    lower case, and the scheme is empty otherwise.  When what follows the
    scheme starts with two slashes, the netloc runs from there to the first
    of ["/"], ["?"] and ["#"]. *)

Definition cleaned (url : string) : string := remove_unsafe (lstrip_c0 url).

(** The scheme, and the URL without it. *)
Definition split_scheme (url : string) : string * string :=
  match index 0 ":" url with
  | Some i =>
      if (0 <? i) && first_is_alpha url && all_chars scheme_chars (substring 0 i url)
      then (lower (substring 0 i url), slice_from (S i) url)
      else ("", url)
  | None => ("", url)
  end.

Definition scheme_of (url : string) : string := fst (split_scheme (cleaned url)).

(** [url[:2] == '//'] *)
Definition starts_with_slashes (s : string) : bool :=
  match s with
  | String a (String b _) => (code a =? 47) && (code b =? 47)
  | _ => false
  end.

(** [_splitnetloc]: the text up to the first of ["/"], ["?"] and ["#"]. *)
Fixpoint up_to_delimiter (s : string) : string :=
  match s with
  | EmptyString => EmptyString
  | String c s' =>
      if (code c =? 47) || (code c =? 63) || (code c =? 35)
      then EmptyString else String c (up_to_delimiter s')
  end.

Definition netloc_of (url : string) : string :=
  let rest := snd (split_scheme (cleaned url)) in
  if starts_with_slashes rest then up_to_delimiter (slice_from 2 rest) else "".

(** [c in s], for the character of code [n]. *)
Fixpoint contains (n : nat) (s : string) : bool :=
  match s with
  | EmptyString => false
  | String c s' => (code c =? n) || contains n s'
  end.

(** [s.isascii()] *)
Definition isascii (s : string) : bool := all_chars (fun c => code c <? 128) s.

(** ** Values, exceptions

    Objects are known by their identity, a [handle]. *)

Definition handle := nat.

(** The values the attributes [session] and [engine] take. *)
Inductive PyVal :=
  | PyNone
  | PyBool (b : bool)
  | PySession (s : handle)
  | PyEngine (e : handle).

(** Truth value testing: [if v:]. *)
Definition truthy (v : PyVal) : bool :=
  match v with
  | PyNone => false
  | PyBool b => b
  | PySession _ | PyEngine _ => true
  end.

(** [v is not None] *)
Definition is_not_None (v : PyVal) : bool :=
  match v with PyNone => false | _ => true end.

(** [v is True] *)
Definition is_True (v : PyVal) : bool :=
  match v with PyBool true => true | _ => false end.

(** The declared type of the constructors' [session] argument,
    [Union[bool, Session]] (resp. [Union[bool, AsyncSession]]). *)
Inductive SessionArg :=
  | ArgBool (b : bool)
  | ArgSession (s : handle).

Definition arg_value (a : SessionArg) : PyVal :=
  match a with
  | ArgBool b => PyBool b
  | ArgSession s => PySession s
  end.

(** The exception classes that occur, with SQLAlchemy's hierarchy. *)
Inductive ExcClass :=
  | BaseException | Exception | GeneratorExit
  | ValueError | AttributeError | RuntimeError | OSError
  | SQLAlchemyError | ArgumentError | StatementError | DBAPIError
  | InterfaceError | DatabaseError
  | OperationalError | ProgrammingError | IntegrityError.

Definition ExcClass_eqb (a b : ExcClass) : bool :=
  match a, b with
  | BaseException, BaseException | Exception, Exception
  | GeneratorExit, GeneratorExit | ValueError, ValueError
  | AttributeError, AttributeError | RuntimeError, RuntimeError
  | OSError, OSError | SQLAlchemyError, SQLAlchemyError
  | ArgumentError, ArgumentError | StatementError, StatementError
  | DBAPIError, DBAPIError | InterfaceError, InterfaceError
  | DatabaseError, DatabaseError | OperationalError, OperationalError
  | ProgrammingError, ProgrammingError | IntegrityError, IntegrityError => true
  | _, _ => false
  end.

(** The direct base class. *)
Definition base (c : ExcClass) : option ExcClass :=
  match c with
  | BaseException => None
  | Exception | GeneratorExit => Some BaseException
  | ValueError | AttributeError | RuntimeError | OSError | SQLAlchemyError => Some Exception
  | ArgumentError | StatementError => Some SQLAlchemyError
  | DBAPIError => Some StatementError
  | InterfaceError | DatabaseError => Some DBAPIError
  | OperationalError | ProgrammingError | IntegrityError => Some DatabaseError
  end.

Fixpoint subclass_upto (fuel : nat) (c cls : ExcClass) : bool :=
  ExcClass_eqb c cls ||
  match fuel, base c with
  | S fuel', Some b => subclass_upto fuel' b cls
  | _, _ => false
  end.

(** [issubclass(c, cls)]; no chain of bases is longer than seven. *)
Definition issubclass (c cls : ExcClass) : bool := subclass_upto 7 c cls.

(** An exception object: its identity, class, [str()] and [__cause__]
    (the identity of the cause). *)
Record Exc := {
  exc_id : handle;
  exc_class : ExcClass;
  exc_msg : string;
  exc_cause : option handle
}.

Definition isinstance (e : Exc) (c : ExcClass) : bool := issubclass (exc_class e) c.

(** ** Engine options: the dict [__engine_kwargs] *)

Inductive KwVal :=
  | KwBool (b : bool)
  | KwJsonDumps                          (* the json.dumps lambda *)
  | KwStaticPool
  | KwDict (d : list (string * bool)).

Definition Kwargs := list (string * KwVal).

(** [d[k] = v] on a dict kept in insertion order. *)
Fixpoint setitem (k : string) (v : KwVal) (d : Kwargs) : Kwargs :=
  match d with
  | [] => [(k, v)]
  | (k', v') :: d' => if (k' =? k)%string then (k, v) :: d' else (k', v') :: setitem k v d'
  end.

(** ** The world: calls into SQLAlchemy and the logger *)

Definition Row := list string.

Inductive Call :=
  | LOGGER_info (msg : string)
  | LOGGER_error (e : Exc)
  | create_engine (url : string) (kwargs : Kwargs)
  | create_async_engine (url : string) (kwargs : Kwargs)
  | create_all (engine : handle)
  | sessionmaker (engine : handle) (async_class : bool)
  | make_session (engine : handle)
  | Session_close (s : handle)
  | Engine_dispose (e : handle)
  | Engine_begin (e : handle)
  | Engine_begin_exit (conn : handle) (commit : bool)
  | Connection_execute (conn : handle) (query : string)
  | Connection_stream (conn : handle) (query : string)
  | Result_close (cursor : handle)
  | Result_next (cursor : handle).

Inductive Event :=
  | Did (c : Call)                       (* the call returned None *)
  | Made (c : Call) (h : handle)         (* the call returned the new object h *)
  | Threw (c : Call) (e : Exc).          (* the call raised e *)

(** [trace] lists the events, the most recent first.  [lib_raises] tells
    whether a call made after a given history raises, and with which class
    and message; [lib_rows] gives the rows a cursor opened after a given
    history delivers.  [lib_netloc_error] is what the installed [urllib]
    says of a netloc that holds a bracketed host or characters outside
    ASCII: the message of the [ValueError] it raises, if it does. *)
Record World := {
  next_id : handle;
  trace : list Event;
  lib_raises : Call -> list Event -> option (ExcClass * string);
  lib_rows : string -> list Event -> list Row;
  lib_netloc_error : string -> option string
}.

Definition record (ev : Event) (w : World) : World :=
  {| next_id := next_id w; trace := ev :: trace w;
     lib_raises := lib_raises w; lib_rows := lib_rows w;
     lib_netloc_error := lib_netloc_error w |}.

Definition alloc (w : World) : World :=
  {| next_id := S (next_id w); trace := trace w;
     lib_raises := lib_raises w; lib_rows := lib_rows w;
     lib_netloc_error := lib_netloc_error w |}.

(** ** The instance

    An attribute that has not been assigned yet is [None] here; reading it
    raises [AttributeError]. *)
Record Instance := {
  __create_tables : option bool;
  __engine_kwargs : option Kwargs;
  url : option string;
  session : option PyVal;
  engine : option PyVal
}.

Definition no_attributes : Instance :=
  {| __create_tables := None; __engine_kwargs := None; url := None;
     session := None; engine := None |}.

Definition with___create_tables (v : bool) (self : Instance) : Instance :=
  {| __create_tables := Some v; __engine_kwargs := __engine_kwargs self;
     url := url self; session := session self; engine := engine self |}.

Definition with___engine_kwargs (v : Kwargs) (self : Instance) : Instance :=
  {| __create_tables := __create_tables self; __engine_kwargs := Some v;
     url := url self; session := session self; engine := engine self |}.

Definition with_url (v : string) (self : Instance) : Instance :=
  {| __create_tables := __create_tables self; __engine_kwargs := __engine_kwargs self;
     url := Some v; session := session self; engine := engine self |}.

Definition with_session (v : PyVal) (self : Instance) : Instance :=
  {| __create_tables := __create_tables self; __engine_kwargs := __engine_kwargs self;
     url := url self; session := Some v; engine := engine self |}.

Definition with_engine (v : PyVal) (self : Instance) : Instance :=
  {| __create_tables := __create_tables self; __engine_kwargs := __engine_kwargs self;
     url := url self; session := session self; engine := Some v |}.

(** ** The monad of method bodies *)

Inductive Result (A : Type) :=
  | Ok (a : A)
  | Raise (e : Exc).
Arguments Ok {A} a.
Arguments Raise {A} e.

Definition State : Type := Instance * World.

Definition M (A : Type) : Type := State -> State * Result A.

Definition ret {A} (a : A) : M A := fun st => (st, Ok a).

Definition bind {A B} (m : M A) (k : A -> M B) : M B :=
  fun st =>
    match m st with
    | (st', Ok a) => k a st'
    | (st', Raise e) => (st', Raise e)
    end.

Notation "x <- m ;; k" := (bind m (fun x => k))
  (at level 61, m at next level, right associativity).
Notation "m ;; k" := (bind m (fun _ => k))
  (at level 61, right associativity).

(** [raise e] *)
Definition raise {A} (e : Exc) : M A := fun st => (st, Raise e).

(** [raise cls(msg)]: a new exception object. *)
Definition raise_new {A} (cls : ExcClass) (msg : string) : M A :=
  fun '(self, w) =>
    ((self, alloc w),
     Raise {| exc_id := next_id w; exc_class := cls; exc_msg := msg; exc_cause := None |}).

(** [raise e from cause]: sets [e.__cause__] and raises [e]. *)
Definition raise_from {A} (e cause : Exc) : M A :=
  raise {| exc_id := exc_id e; exc_class := exc_class e; exc_msg := exc_msg e;
           exc_cause := Some (exc_id cause) |}.

(** [try: m  except cls as error: handler error] *)
Definition try_except {A} (m : M A) (cls : ExcClass) (handler : Exc -> M A) : M A :=
  fun st =>
    match m st with
    | (st', Raise e) => if isinstance e cls then handler e st' else (st', Raise e)
    | r => r
    end.

(** [try: m  finally: fin] *)
Definition try_finally {A} (m : M A) (fin : M unit) : M A :=
  fun st =>
    match m st with
    | (st', r) =>
        match fin st' with
        | (st'', Ok _) => (st'', r)
        | (st'', Raise e) => (st'', Raise e)
        end
    end.

Definition getattr {A} (name : string) (field : Instance -> option A) : M A :=
  fun '(self, w) =>
    match field self with
    | Some v => ((self, w), Ok v)
    | None =>
        raise_new AttributeError ("object has no attribute '" ++ name ++ "'")%string (self, w)
    end.

Definition setattr (update : Instance -> Instance) : M unit :=
  fun '(self, w) => ((update self, w), Ok tt).

(** A library call that cannot fail and returns nothing: logging, and
    [close()], [dispose()] and the exit of a scope, which SQLAlchemy lets one
    call in any state. *)
Definition lib_do (c : Call) : M unit :=
  fun '(self, w) => ((self, record (Did c) w), Ok tt).

(** A library call that raises when the oracle says so. *)
Definition lib_raise_or {A} (c : Call) (otherwise : M A) : M A :=
  fun '(self, w) =>
    match lib_raises w c (trace w) with
    | Some (cls, msg) =>
        let e := {| exc_id := next_id w; exc_class := cls; exc_msg := msg;
                    exc_cause := None |} in
        ((self, record (Threw c e) (alloc w)), Raise e)
    | None => otherwise (self, w)
    end.

(** ... and returns nothing otherwise. *)
Definition lib_call (c : Call) : M unit := lib_raise_or c (lib_do c).

(** ... and returns a new object otherwise. *)
Definition lib_new (c : Call) : M handle :=
  lib_raise_or c (fun '(self, w) => ((self, record (Made c (next_id w)) (alloc w)), Ok (next_id w))).

(** Method calls on the value of an attribute. *)
Definition call_close (v : PyVal) : M unit :=
  match v with
  | PySession s => lib_do (Session_close s)
  | _ => raise_new AttributeError "object has no attribute 'close'"
  end.

Definition call_dispose (v : PyVal) : M unit :=
  match v with
  | PyEngine e => lib_do (Engine_dispose e)
  | _ => raise_new AttributeError "object has no attribute 'dispose'"
  end.

Definition call_begin (v : PyVal) : M handle :=
  match v with
  | PyEngine e => lib_new (Engine_begin e)
  | _ => raise_new AttributeError "object has no attribute 'begin'"
  end.

(** [raise cls(str(cause)) from cause]: a new exception object whose
    [__cause__] is [cause]. *)
Definition raise_new_from {A} (cls : ExcClass) (cause : Exc) : M A :=
  fun '(self, w) =>
    ((self, alloc w),
     Raise {| exc_id := next_id w; exc_class := cls; exc_msg := exc_msg cause;
              exc_cause := Some (exc_id cause) |}).

(** [with enter as a: body a]; [exit a true] runs when the body completes,
    [exit a false] when it raises, and the exception then propagates. *)
Definition with_ {A B} (enter : M A) (exit : A -> bool -> M unit) (body : A -> M B) : M B :=
  a <- enter ;;
  fun st =>
    match body a st with
    | (st', Ok b) => (exit a true ;; ret b) st'
    | (st', Raise e) => (exit a false ;; raise e) st'
    end.

(** SQLAlchemy is handed the value of [self.engine]; only an engine has the
    methods it calls on it. *)
Definition as_engine (v : PyVal) : M handle :=
  match v with
  | PyEngine e => ret e
  | _ => raise_new AttributeError "object is not an engine"
  end.

(** [self.__engine_kwargs[k] = v] *)
Definition kwargs_setitem (k : string) (v : KwVal) : M unit :=
  d <- getattr "__engine_kwargs" __engine_kwargs ;;
  setattr (with___engine_kwargs (setitem k v d)).

(** ** [urllib.parse.urlparse]

    Only the [scheme] component of the result is read by the package.
    [urlparse] raises [ValueError] on a netloc it finds malformed: always
    when the netloc holds one of the brackets without the other; and, as the
    installed release decides ([_check_bracketed_netloc],
    [_check_bracketed_host], [_checknetloc]), when it holds both brackets or
    characters outside ASCII.  A netloc without brackets and in ASCII is
    never refused. *)

Record ParseResult := { scheme : string }.

(** What [urlparse] returns, when it returns. *)
Definition parsed (url : string) : ParseResult := {| scheme := scheme_of url |}.

(** The message of the [ValueError] that [urlparse] raises on [url], if it
    raises. *)
Definition invalid_url (w : World) (url : string) : option string :=
  let netloc := netloc_of url in
  let opens := contains 91 netloc in
  let closes := contains 93 netloc in
  if xorb opens closes then Some "Invalid IPv6 URL"
  else if opens || negb (isascii netloc) then lib_netloc_error w netloc
  else None.

Definition urlparse (url : string) : M ParseResult :=
  fun '(self, w) =>
    match invalid_url w url with
    | Some msg => raise_new ValueError msg (self, w)
    | None => ((self, w), Ok (parsed url))
    end.

Definition scheme_error (parsed_url : ParseResult) : string :=
  ("Database can be either " ++ dquote ++ "sqlite" ++ dquote ++ " or "
   ++ dquote ++ "postgresql" ++ dquote ++ ", not: "
   ++ dquote ++ scheme parsed_url ++ dquote)%string.


(** ** Generators

    The body of a generator function is a tree: it returns, raises, yields a
    row and waits to be resumed, or runs a step of the method monad and goes
    on with its result. *)

Inductive Resume :=
  | Next                                 (* next(gen) *)
  | Throw (e : Exc).                     (* gen.throw(e) *)

Inductive Gen : Type :=
  | GReturn
  | GRaise (e : Exc)
  | GYield (row : Row) (k : Resume -> Gen)
  | GDo {A : Type} (m : M A) (k : Result A -> Gen).

(** [yield row] followed by [rest]: an exception thrown in is raised at the
    [yield]. *)
Definition yield (row : Row) (rest : Gen) : Gen :=
  GYield row (fun x => match x with Next => rest | Throw e => GRaise e end).

(** The body of a [with] block inside a generator: [exit true] runs when the
    body returns, [exit false] when an exception leaves it. *)
Fixpoint with_exit (exit : bool -> M unit) (g : Gen) : Gen :=
  match g with
  | GReturn =>
      GDo (exit true) (fun r => match r with Ok _ => GReturn | Raise e => GRaise e end)
  | GRaise e =>
      GDo (exit false) (fun r => match r with Ok _ => GRaise e | Raise e' => GRaise e' end)
  | GYield row k => GYield row (fun x => with_exit exit (k x))
  | GDo m k => GDo m (fun r => with_exit exit (k r))
  end.

(** [with enter as a: body a] inside a generator. *)
Definition gwith {A} (enter : M A) (exit : A -> bool -> M unit) (body : A -> Gen) : Gen :=
  GDo enter (fun r =>
    match r with
    | Ok a => with_exit (exit a) (body a)
    | Raise e => GRaise e
    end).

(** Executing [query] on a connection: a cursor, and the rows it will
    deliver. *)
Definition open_cursor (c : Call) (query : string) : M (handle * list Row) :=
  lib_raise_or c
    (fun '(self, w) =>
       ((self, record (Made c (next_id w)) (alloc w)),
        Ok (next_id w, lib_rows w query (trace w)))).

(** Iterating over the cursor and yielding each row; every fetch is a call
    that may raise. *)
Fixpoint yield_rows (cursor : handle) (rows : list Row) : Gen :=
  GDo (lib_call (Result_next cursor)) (fun r =>
    match r with
    | Raise e => GRaise e
    | Ok _ =>
        match rows with
        | [] => GReturn
        | row :: rows' => yield row (yield_rows cursor rows')
        end
    end).

(** A generator object. *)
Inductive Generator :=
  | Created (body : Gen)
  | Suspended (k : Resume -> Gen)
  | Finished.

Inductive Paused :=
  | PReturn
  | PRaise (e : Exc)
  | PYield (row : Row) (k : Resume -> Gen).

(** Running a body up to its next [yield] or its end. *)
Fixpoint run (g : Gen) (st : State) : State * Paused :=
  match g with
  | GReturn => (st, PReturn)
  | GRaise e => (st, PRaise e)
  | GYield row k => (st, PYield row k)
  | GDo m k => let '(st', r) := m st in run (k r) st'
  end.

Inductive Produced :=
  | Yielded (row : Row)
  | StopIteration
  | Raised (e : Exc).

Definition settle (p : State * Paused) : State * Generator * Produced :=
  match p with
  | (st, PReturn) => (st, Finished, StopIteration)
  | (st, PRaise e) => (st, Finished, Raised e)
  | (st, PYield row k) => (st, Suspended k, Yielded row)
  end.

(** [next(gen)] *)
Definition next (gen : Generator) (st : State) : State * Generator * Produced :=
  match gen with
  | Created body => settle (run body st)
  | Suspended k => settle (run (k Next) st)
  | Finished => (st, Finished, StopIteration)
  end.

(** [gen.close()]: [GeneratorExit] is thrown in at the [yield] where the
    generator waits; a generator that was never started, or has ended, is
    just marked as ended. *)
Definition close (gen : Generator) (st : State) : State * Generator * Result unit :=
  match gen with
  | Created _ | Finished => (st, Finished, Ok tt)
  | Suspended k =>
      let '(self, w) := st in
      let exit := {| exc_id := next_id w; exc_class := GeneratorExit;
                     exc_msg := ""; exc_cause := None |} in
      match run (k (Throw exit)) (self, alloc w) with
      | (st', PReturn) => (st', Finished, Ok tt)
      | (st', PRaise e) =>
          if isinstance e GeneratorExit then (st', Finished, Ok tt)
          else (st', Finished, Raise e)
      | ((self', w'), PYield _ k') =>
          ((self', alloc w'), Suspended k',
           Raise {| exc_id := next_id w'; exc_class := RuntimeError;
                    exc_msg := "generator ignored GeneratorExit"; exc_cause := None |})
      end
  end.

(** What the consumer of a generator does, and what it sees. *)
Inductive Op := DoNext | DoClose.

Inductive Seen :=
  | SeenNext (p : Produced)
  | SeenClose (r : Result unit).

Fixpoint drive (ops : list Op) (gen : Generator) (st : State)
  : State * Generator * list Seen :=
  match ops with
  | [] => (st, gen, [])
  | DoNext :: ops' =>
      let '(st', gen', p) := next gen st in
      let '(st'', gen'', seen) := drive ops' gen' st' in
      (st'', gen'', SeenNext p :: seen)
  | DoClose :: ops' =>
      let '(st', gen', r) := close gen st in
      let '(st'', gen'', seen) := drive ops' gen' st' in
      (st'', gen'', SeenClose r :: seen)
  end.

(** ** class Boilerplate *)

Module Boilerplate.

Definition __init__ (url : string) (echo create_tables : bool)
    (session : SessionArg) : M unit :=
  parsed_url <- urlparse url ;;
  setattr (with___create_tables create_tables) ;;
  setattr (with___engine_kwargs
             [("echo", KwBool echo); ("json_serializer", KwJsonDumps)]) ;;
  (if (lower (scheme parsed_url) =? "postgresql")%string then
     setattr (with_url url)
   else if (lower (scheme parsed_url) =? "sqlite")%string then
     setattr (with_url url) ;;
     kwargs_setitem "poolclass" KwStaticPool ;;
     kwargs_setitem "connect_args" (KwDict [("check_same_thread", false)])
   else
     raise_new ValueError (scheme_error parsed_url)) ;;
  (if is_True (arg_value session)
   then raise_new ValueError "Session can be either false or AsyncSession"
   else ret tt) ;;
  setattr (with_session (arg_value session)) ;;
  setattr (with_engine (PyBool false)).

(** The statements of [connect] after the early return. *)
Definition connect_anew : M PyVal :=
  lib_do (LOGGER_info "Connecting to database") ;;
  try_finally
    (try_except
       (u <- getattr "url" url ;;
        kw <- getattr "__engine_kwargs" __engine_kwargs ;;
        e <- lib_new (create_engine u kw) ;;
        setattr (with_engine (PyEngine e)) ;;
        ct <- getattr "__create_tables" __create_tables ;;
        (if ct : bool then
           b <- getattr "engine" engine ;;
           b <- as_engine b ;;
           lib_call (create_all b)
         else ret tt) ;;
        b <- getattr "engine" engine ;;
        b <- as_engine b ;;
        lib_call (sessionmaker b false) ;;
        s <- lib_new (make_session b) ;;
        setattr (with_session (PySession s)))
       SQLAlchemyError
       (fun error =>
          lib_do (LOGGER_error error) ;;
          raise_from error error))
    (try_except
       (s <- getattr "session" session ;;
        call_close s)
       AttributeError
       (fun _ => ret tt)) ;;
  getattr "session" session.

Definition connect (force : bool) : M PyVal :=
  s <- getattr "session" session ;;
  if truthy s then
    if negb force then getattr "session" session
    else connect_anew
  else connect_anew.

Definition disconnect : M unit :=
  s <- getattr "session" session ;;
  (if is_not_None s then call_close s else ret tt) ;;
  e <- getattr "engine" engine ;;
  (if is_not_None e then call_dispose e else ret tt) ;;
  lib_do (LOGGER_info "Disconnected from database").

(** [query = text(query)] builds the statement and touches nothing. *)
Definition execute_body (query : string) : Gen :=
  gwith (b <- getattr "engine" engine ;;
         call_begin b)
        (fun connection commit => lib_do (Engine_begin_exit connection commit))
        (fun connection =>
           gwith (open_cursor (Connection_execute connection query) query)
                 (fun rows _ => lib_do (Result_close (fst rows)))
                 (fun rows => yield_rows (fst rows) (snd rows))).

Definition execute (query : string) : Generator := Created (execute_body query).

Definition __enter__ : M unit := connect false ;; ret tt.

Definition __exit__ : M unit := disconnect.

Definition __call__ : M unit := connect false ;; ret tt.

End Boilerplate.

(** ** class AsyncBoilerplate

    Awaiting is sequencing: no other task touches the instance. *)

Module AsyncBoilerplate.

Definition __init__ (url : string) (echo create_tables : bool)
    (session : SessionArg) : M unit :=
  setattr (with___create_tables create_tables) ;;
  setattr (with___engine_kwargs
             [("echo", KwBool echo); ("json_serializer", KwJsonDumps)]) ;;
  parsed_url <- urlparse url ;;
  (if (lower (scheme parsed_url) =? "postgresql")%string then
     setattr (with_url ("postgresql+asyncpg://" ++ slice_from 13 url)%string)
   else if (lower (scheme parsed_url) =? "sqlite")%string then
     setattr (with_url ("sqlite+aiosqlite://" ++ slice_from 9 url)%string) ;;
     kwargs_setitem "poolclass" KwStaticPool ;;
     kwargs_setitem "connect_args" (KwDict [("check_same_thread", false)])
   else
     raise_new ValueError (scheme_error parsed_url)) ;;
  (if is_True (arg_value session)
   then raise_new ValueError "Session can be either false or AsyncSession"
   else ret tt) ;;
  setattr (with_session (arg_value session)) ;;
  setattr (with_engine PyNone).

(** The schema-creation step:
    [async with self.engine.begin() as connection:
       await connection.run_sync(BASE.metadata.create_all)]. *)
Definition provision_schema : M unit :=
  with_ (b <- getattr "engine" engine ;;
         call_begin b)
        (fun connection commit => lib_do (Engine_begin_exit connection commit))
        (fun connection => lib_call (create_all connection)).

(** The statements of [connect] after the early return. *)
Definition connect_anew : M PyVal :=
  lib_do (LOGGER_info "Connecting to database") ;;
  bound <-
    try_except
      (u <- getattr "url" url ;;
       kw <- getattr "__engine_kwargs" __engine_kwargs ;;
       e <- lib_new (create_async_engine u kw) ;;
       setattr (with_engine (PyEngine e)) ;;
       ct <- getattr "__create_tables" __create_tables ;;
       (if ct : bool then
          try_except
            (provision_schema ;;
             lib_do (LOGGER_info "Connected to database"))
            OperationalError
            (fun error =>
               lib_do (LOGGER_error error) ;;
               raise_new_from RuntimeError error)
        else ret tt) ;;
       b <- getattr "engine" engine ;;
       b <- as_engine b ;;
       lib_call (sessionmaker b true) ;;
       ret b)
      SQLAlchemyError
      (fun error =>
         lib_do (LOGGER_error error) ;;
         raise_from error error) ;;
  s <- lib_new (make_session bound) ;;
  setattr (with_session (PySession s)) ;;
  getattr "session" session.

Definition connect (force : bool) : M PyVal :=
  s <- getattr "session" session ;;
  if truthy s then
    if negb force then getattr "session" session
    else connect_anew
  else connect_anew.

Definition disconnect : M unit :=
  s <- getattr "session" session ;;
  (if is_not_None s then call_close s else ret tt) ;;
  e <- getattr "engine" engine ;;
  (if is_not_None e then call_dispose e else ret tt) ;;
  lib_do (LOGGER_info "Disconnected from database").

Definition execute_body (query : string) : Gen :=
  gwith (b <- getattr "engine" engine ;;
         call_begin b)
        (fun connection commit => lib_do (Engine_begin_exit connection commit))
        (fun connection =>
           GDo (open_cursor (Connection_stream connection query) query) (fun r =>
             match r with
             | Ok rows => yield_rows (fst rows) (snd rows)
             | Raise e => GRaise e
             end)).

Definition execute (query : string) : Generator := Created (execute_body query).

Definition __aenter__ : M unit := connect false ;; ret tt.

Definition __aexit__ : M unit := disconnect.

Definition __call__ : M unit := connect false ;; ret tt.

End AsyncBoilerplate.

(** ** Worlds for examples *)

(** A library in which no call fails and every query yields [rows]. *)
Definition calm (rows : list Row) : World :=
  {| next_id := 0; trace := [];
     lib_raises := fun _ _ => None;
     lib_rows := fun _ _ => rows;
     lib_netloc_error := fun _ => None |}.

(** A library in which the calls selected by [fails] raise [cls]. *)
Definition faulty (fails : Call -> bool) (cls : ExcClass) : World :=
  {| next_id := 0; trace := [];
     lib_raises := fun c _ => if fails c then Some (cls, "database failure") else None;
     lib_rows := fun _ _ => [];
     lib_netloc_error := fun _ => None |}.

(** ** Vocabulary of the statements *)

(** The scheme test of both constructors. *)
Definition accepted (url : string) : bool :=
  (lower (scheme (parsed url)) =? "postgresql")%string
  || (lower (scheme (parsed url)) =? "sqlite")%string.

(** The engine options stored before the scheme is looked at. *)
Definition initial_kwargs (echo : bool) : Kwargs :=
  [("echo", KwBool echo); ("json_serializer", KwJsonDumps)].


(** ** The two classes side by side *)

Inductive Variant := Blocking | NonBlocking.

Definition init_of (v : Variant) : string -> bool -> bool -> SessionArg -> M unit :=
  match v with
  | Blocking => Boilerplate.__init__
  | NonBlocking => AsyncBoilerplate.__init__
  end.

Definition connect_of (v : Variant) : bool -> M PyVal :=
  match v with
  | Blocking => Boilerplate.connect
  | NonBlocking => AsyncBoilerplate.connect
  end.

Definition disconnect_of (v : Variant) : M unit :=
  match v with
  | Blocking => Boilerplate.disconnect
  | NonBlocking => AsyncBoilerplate.disconnect
  end.

Definition execute_of (v : Variant) : string -> Generator :=
  match v with
  | Blocking => Boilerplate.execute
  | NonBlocking => AsyncBoilerplate.execute
  end.

Definition create_engine_of (v : Variant) : string -> Kwargs -> Call :=
  match v with
  | Blocking => create_engine
  | NonBlocking => create_async_engine
  end.

(** What a constructor call of the class [v] on the URL [u] that ended in
    [out] did, by what [urlparse] says of [u], the scheme of [u] and the
    session argument.  [Boilerplate.__init__] calls [urlparse] first,
    [AsyncBoilerplate.__init__] after it has stored the flag and the
    options. *)
Definition construction_outcome (v : Variant) (u : string) (echo create_tables : bool)
    (sess : SessionArg) (w : World) (out : State * Result unit) : Prop :=
  trace (snd (fst out)) = trace w /\
  (snd out = Ok tt <->
   invalid_url w u = None /\ accepted u = true /\ sess <> ArgBool true) /\
  (forall msg,
     invalid_url w u = Some msg ->
     exists e,
       snd out = Raise e /\
       exc_class e = ValueError /\
       exc_msg e = msg /\
       url (fst (fst out)) = None /\
       session (fst (fst out)) = None /\
       engine (fst (fst out)) = None /\
       __create_tables (fst (fst out))
       = match v with Blocking => None | NonBlocking => Some create_tables end /\
       __engine_kwargs (fst (fst out))
       = match v with Blocking => None | NonBlocking => Some (initial_kwargs echo) end) /\
  (invalid_url w u = None ->
   accepted u = false ->
   exists e,
     snd out = Raise e /\
     exc_class e = ValueError /\
     exc_msg e = scheme_error (parsed u) /\
     url (fst (fst out)) = None /\
     session (fst (fst out)) = None /\
     engine (fst (fst out)) = None /\
     __create_tables (fst (fst out)) = Some create_tables /\
     __engine_kwargs (fst (fst out)) = Some (initial_kwargs echo)).

(** What a constructor call that ended in [out] did with its session
    argument. *)
Definition session_argument_outcome (w : World) (url : string) (sess : SessionArg)
    (out : State * Result unit) : Prop :=
  (sess = ArgBool true ->
   exists e, snd out = Raise e /\ exc_class e = ValueError /\
     (invalid_url w url = None -> accepted url = true ->
      exc_msg e = "Session can be either false or AsyncSession")) /\
  (snd out = Ok tt ->
   session (fst (fst out)) = Some (arg_value sess) /\
   (truthy (arg_value sess) = true -> exists s, sess = ArgSession s)).

(** The events between two worlds, the most recent first. *)
Definition added_since (before after : World) : list Event :=
  firstn (length (trace after) - length (trace before)) (trace after).

(** The object held by an attribute exists: its identity has been given
    out. *)
Definition known (w : World) (v : option PyVal) : Prop :=
  match v with
  | Some (PySession h) | Some (PyEngine h) => h < next_id w
  | _ => True
  end.

(** Every attribute has been assigned. *)
Definition initialized (self : Instance) : Prop :=
  __create_tables self <> None /\ __engine_kwargs self <> None /\
  url self <> None /\ session self <> None /\ engine self <> None.

(** No library call fails. *)
Definition never_fails (w : World) : Prop :=
  forall c t, lib_raises w c t = None.

(** An instance on an in-memory SQLite database, as the tests build it,
    before and after [connect()], in the world [w]. *)
Definition constructed (v : Variant) (w : World) : State :=
  fst (init_of v "sqlite://" false true (ArgBool false) (no_attributes, w)).

Definition connected (v : Variant) (w : World) : State :=
  fst (connect_of v false (constructed v w)).

(** The exception [original] after [raise original from original]. *)
Definition reraised (original : Exc) : Exc :=
  {| exc_id := exc_id original; exc_class := exc_class original;
     exc_msg := exc_msg original; exc_cause := Some (exc_id original) |}.

Definition is_create_engine (c : Call) : bool :=
  match c with
  | create_engine _ _ | create_async_engine _ _ => true
  | _ => false
  end.

Definition is_create_all (c : Call) : bool :=
  match c with
  | create_all _ => true
  | _ => false
  end.

(** The calls of the schema-creation step of [AsyncBoilerplate.connect]. *)
Definition schema_step (c : Call) : bool :=
  match c with
  | Engine_begin _ | create_all _ => true
  | _ => false
  end.

(** The calls that [connect] makes inside its [try] block and that may
    raise: in [Boilerplate.connect] the session is made there too, in
    [AsyncBoilerplate.connect] it is made after the block. *)
Definition guarded (v : Variant) (c : Call) : bool :=
  match v, c with
  | Blocking, (create_engine _ _ | create_all _ | sessionmaker _ _ | make_session _) => true
  | NonBlocking, (create_async_engine _ _ | Engine_begin _ | create_all _
                  | sessionmaker _ _) => true
  | _, _ => false
  end.

(** The errors that the inner handler of [AsyncBoilerplate.connect] takes:
    an [OperationalError] of the schema-creation step. *)
Definition wrapped (v : Variant) (c : Call) (original : Exc) : bool :=
  match v with
  | Blocking => false
  | NonBlocking => schema_step c && isinstance original OperationalError
  end.

Definition is_make_session (c : Call) : bool :=
  match c with
  | make_session _ => true
  | _ => false
  end.

(** ** Vocabulary for generators *)

Definition event_call (ev : Event) : Call :=
  match ev with
  | Did c | Made c _ | Threw c _ => c
  end.

(** The calls on a cursor, and the calls that open and close a
    transactional scope. *)
Definition cursor_call (c : Call) : bool :=
  match c with
  | Connection_execute _ _ | Connection_stream _ _
  | Result_close _ | Result_next _ => true
  | _ => false
  end.

Definition scope_call (c : Call) : bool :=
  match c with
  | Engine_begin _ | Engine_begin_exit _ _ => true
  | _ => false
  end.

Definition execute_call (c : Call) : bool := cursor_call c || scope_call c.

(** The scopes opened and closed in a trace, the most recent first. *)
Inductive ScopeEvent :=
  | Opened (e conn : handle)
  | Closed (conn : handle) (commit : bool).

Fixpoint scope_log (tr : list Event) : list ScopeEvent :=
  match tr with
  | [] => []
  | Made (Engine_begin e) conn :: tr' => Opened e conn :: scope_log tr'
  | Did (Engine_begin_exit conn commit) :: tr' => Closed conn commit :: scope_log tr'
  | _ :: tr' => scope_log tr'
  end.

(** The world [w'] is [w] after the events [added], all of them calls that
    satisfy [ok]. *)
Definition grows (ok : Call -> bool) (w w' : World) (added : list Event) : Prop :=
  trace w' = added ++ trace w /\
  forallb (fun ev => ok (event_call ev)) added = true /\
  next_id w <= next_id w'.

(** [m] leaves the instance as it is and only makes calls that satisfy
    [ok]. *)
Definition adds_only (ok : Call -> bool) {A} (m : M A) : Prop :=
  forall self w,
    fst (fst (m (self, w))) = self /\
    exists added, grows ok w (snd (fst (m (self, w)))) added.

Inductive ended : Gen -> Prop :=
  | ended_return : ended GReturn
  | ended_raise e : ended (GRaise e).

(** [stops g]: [g] works on its cursor and ends without a [yield]. *)
Inductive stops : Gen -> Prop :=
  | stops_return : stops GReturn
  | stops_raise e : stops (GRaise e)
  | stops_do A (m : M A) k :
      adds_only cursor_call m -> (forall r, stops (k r)) -> stops (GDo m k).

(** [streams g]: [g] works on its cursor between its [yield]s, and ends
    without another [yield] when an exception is thrown in at one of them. *)
Inductive streams : Gen -> Prop :=
  | streams_return : streams GReturn
  | streams_raise e : streams (GRaise e)
  | streams_do A (m : M A) k :
      adds_only cursor_call m -> (forall r, streams (k r)) -> streams (GDo m k)
  | streams_yield row k :
      streams (k Next) -> (forall e, stops (k (Throw e))) -> streams (GYield row k).

(** [unwinds conn g]: [g] closes the scope of [conn], once, as its last call,
    and does not [yield]. *)
Inductive unwinds (conn : handle) : Gen -> Prop :=
  | unwinds_exit commit k :
      (forall r, ended (k r)) ->
      unwinds conn (GDo (lib_do (Engine_begin_exit conn commit)) k)
  | unwinds_do A (m : M A) k :
      adds_only cursor_call m -> (forall r, unwinds conn (k r)) ->
      unwinds conn (GDo m k).

(** [in_scope conn g]: [g] is what remains to run inside the scope of
    [conn]; on every path it closes that scope once, as its last call. *)
Inductive in_scope (conn : handle) : Gen -> Prop :=
  | in_scope_exit commit k :
      (forall r, ended (k r)) ->
      in_scope conn (GDo (lib_do (Engine_begin_exit conn commit)) k)
  | in_scope_do A (m : M A) k :
      adds_only cursor_call m -> (forall r, in_scope conn (k r)) ->
      in_scope conn (GDo m k)
  | in_scope_yield row k :
      in_scope conn (k Next) -> (forall e, unwinds conn (k (Throw e))) ->
      in_scope conn (GYield row k).

(** The shape of both [execute] bodies: a scope opened with
    [self.engine.begin()] around statements that stream from a cursor. *)
Inductive transactional : Gen -> Prop :=
  | transactional_intro inner :
      (forall conn, streams (inner conn)) ->
      transactional
        (gwith (b <- getattr "engine" engine ;; call_begin b)
               (fun connection commit => lib_do (Engine_begin_exit connection commit))
               inner).

(** [tracks e gen log]: the generator [gen] of an [execute] on the engine [e]
    and the scopes it has opened and closed so far. *)
Inductive tracks (e : handle) : Generator -> list ScopeEvent -> Prop :=
  | tracks_created body :
      transactional body -> tracks e (Created body) []
  | tracks_suspended conn k :
      in_scope conn (k Next) -> (forall x, unwinds conn (k (Throw x))) ->
      tracks e (Suspended k) [Opened e conn]
  | tracks_unopened : tracks e Finished []
  | tracks_closed conn commit :
      tracks e Finished [Closed conn commit; Opened e conn].

(** The consumer has seen the generator end: it closed it, or a [next]
    gave [StopIteration] or an exception. *)
Definition saw_the_end (seen : list Seen) : bool :=
  existsb (fun s => match s with SeenNext (Yielded _) => false | _ => true end) seen.

(** The rows the consumer received, in order. *)
Fixpoint rows_seen (seen : list Seen) : list Row :=
  match seen with
  | [] => []
  | SeenNext (Yielded row) :: seen' => row :: rows_seen seen'
  | _ :: seen' => rows_seen seen'
  end.

(** A library that delivers [rows] and in which the fetch that follows the
    first one fails. *)
Definition breaks_after_first_row (rows : list Row) : World :=
  {| next_id := 0; trace := [];
     lib_raises := fun c tr =>
       match c with
       | Result_next cursor =>
           if existsb (fun ev => match ev with
                                 | Did (Result_next _) => true
                                 | _ => false
                                 end) tr
           then Some (OperationalError, "connection lost")
           else None
       | _ => None
       end;
     lib_rows := fun _ _ => rows;
     lib_netloc_error := fun _ => None |}.

(** The body ran to its end. *)
Definition no_yield (p : Paused) : Prop :=
  match p with PYield _ _ => False | _ => True end.

(** ** What the owner of an instance does with it *)

Inductive Method :=
  | call_connect (force : bool)
  | call_disconnect
  | call_execute (query : string) (ops : list Op).

(** The state after a method call, whether it returned or raised. *)
Definition invoke (v : Variant) (m : Method) (st : State) : State :=
  match m with
  | call_connect force => fst (connect_of v force st)
  | call_disconnect => fst (disconnect_of v st)
  | call_execute query ops => fst (fst (drive ops (execute_of v query) st))
  end.

Fixpoint invoke_all (v : Variant) (ms : list Method) (st : State) : State :=
  match ms with
  | [] => st
  | m :: ms' => invoke_all v ms' (invoke v m st)
  end.

(** [h] is released by one of the events: a session with this identity is
    closed, or an engine with this identity is disposed. *)
Definition released (h : handle) (events : list Event) : Prop :=
  In (Did (Session_close h)) events \/ In (Did (Engine_dispose h)) events.

(** The object [h] exists and the instance does not hold it, neither as its
    session nor as its engine. *)
Definition not_held (h : handle) (st : State) : Prop :=
  h < next_id (snd st) /\
  session (fst st) <> Some (PySession h) /\
  engine (fst st) <> Some (PyEngine h).

(** ** Further vocabulary *)

(** The engine options of an instance on SQLite. *)
Definition sqlite_kwargs (echo : bool) : Kwargs :=
  [("echo", KwBool echo); ("json_serializer", KwJsonDumps);
   ("poolclass", KwStaticPool);
   ("connect_args", KwDict [("check_same_thread", false)])].

(** What [self.engine] is after construction. *)
Definition no_engine (v : Variant) : PyVal :=
  match v with
  | Blocking => PyBool false
  | NonBlocking => PyNone
  end.

(** The condition under which [connect] goes past its early return. *)
Definition connects_anew (force : bool) (self : Instance) : Prop :=
  force = true \/ exists s0, session self = Some s0 /\ truthy s0 = false.

(** The calls of the schema-creation step of each class, the most recent
    first, on the engine [e]; the non-blocking one opens the connection
    [S e]. *)
Definition schema_calls (v : Variant) (e : handle) : list Event :=
  match v with
  | Blocking => [Did (create_all e)]
  | NonBlocking =>
      [Did (LOGGER_info "Connected to database");
       Did (Engine_begin_exit (S e) true);
       Did (create_all (S e));
       Made (Engine_begin e) (S e)]
  end.

(** The state of an instance that a constructor built: every attribute is
    assigned, and the session and the engine it holds exist. *)
Definition well_formed (st : State) : Prop :=
  initialized (fst st) /\
  known (snd st) (session (fst st)) /\
  known (snd st) (engine (fst st)).

Definition enter_of (v : Variant) : M unit :=
  match v with
  | Blocking => Boilerplate.__enter__
  | NonBlocking => AsyncBoilerplate.__aenter__
  end.

Definition exit_of (v : Variant) : M unit :=
  match v with
  | Blocking => Boilerplate.__exit__
  | NonBlocking => AsyncBoilerplate.__aexit__
  end.

(** [with instance as database: body] (resp. [async with]); [__exit__]
    takes the exception, if any, ignores it and returns [None], so that it
    propagates. *)
Definition managed (v : Variant) {A} (body : M A) : M A :=
  with_ (enter_of v) (fun _ _ => exit_of v) (fun _ => body).

(** ** Vocabulary for the rows of [execute] *)

(** The rows of the cursor that the first [next] on a generator of
    [execute] opens, in the world [w], on the engine [e]: the scope is
    opened first. *)
Definition cursor_rows (w : World) (e : handle) (query : string) : list Row :=
  lib_rows w query (Made (Engine_begin e) (next_id w) :: trace w).

(** What ended the iteration: the first thing the consumer saw that is not
    a row. *)
Fixpoint first_end (seen : list Seen) : option Seen :=
  match seen with
  | [] => None
  | SeenNext (Yielded _) :: seen' => first_end seen'
  | s :: _ => Some s
  end.

(** [fails g]: [g] works on its cursor and ends by raising, without a
    [yield]. *)
Inductive fails : Gen -> Prop :=
  | fails_raise e : fails (GRaise e)
  | fails_do A (m : M A) k :
      adds_only cursor_call m -> (forall r, fails (k r)) -> fails (GDo m k).

(** [serves rows g]: [g] yields, in order, rows from the front of [rows],
    works on its cursor in between, and raises when an exception is thrown
    in at a [yield]. *)
Inductive serves : list Row -> Gen -> Prop :=
  | serves_return rows : serves rows GReturn
  | serves_raise rows e : serves rows (GRaise e)
  | serves_do rows A (m : M A) k :
      adds_only cursor_call m -> (forall r, serves rows (k r)) ->
      serves rows (GDo m k)
  | serves_yield row rows k :
      serves rows (k Next) -> (forall e, fails (k (Throw e))) ->
      serves (row :: rows) (GYield row k).

(** [rolls_back conn g]: [g] leaves the scope of [conn] with an exception:
    the scope is closed without commit, and [g] raises. *)
Inductive rolls_back (conn : handle) : Gen -> Prop :=
  | rolls_back_exit e :
      rolls_back conn
        (GDo (lib_do (Engine_begin_exit conn false))
             (fun r => match r with Ok _ => GRaise e | Raise e' => GRaise e' end))
  | rolls_back_do A (m : M A) k :
      adds_only cursor_call m -> (forall r, rolls_back conn (k r)) ->
      rolls_back conn (GDo m k).

(** [settles conn rows g]: [g] is what remains to run inside the scope of
    [conn] with [rows] still to come: it commits when it returns and rolls
    back when it raises. *)
Inductive settles (conn : handle) : list Row -> Gen -> Prop :=
  | settles_commit rows :
      settles conn rows
        (GDo (lib_do (Engine_begin_exit conn true))
             (fun r => match r with Ok _ => GReturn | Raise e => GRaise e end))
  | settles_rollback rows e :
      settles conn rows
        (GDo (lib_do (Engine_begin_exit conn false))
             (fun r => match r with Ok _ => GRaise e | Raise e' => GRaise e' end))
  | settles_do rows A (m : M A) k :
      adds_only cursor_call m -> (forall r, settles conn rows (k r)) ->
      settles conn rows (GDo m k)
  | settles_yield row rows k :
      settles conn rows (k Next) -> (forall e, rolls_back conn (k (Throw e))) ->
      settles conn (row :: rows) (GYield row k).

(** [serving e total gen seen log]: a generator of [execute] on the engine
    [e] whose cursor holds the rows [total], what its consumer has seen so
    far and the scopes opened and closed so far. *)
Inductive serving (e : handle) (total : list Row)
  : Generator -> list Seen -> list ScopeEvent -> Prop :=
  | serving_suspended conn k seen rest :
      first_end seen = None ->
      total = rows_seen seen ++ rest ->
      settles conn rest (k Next) ->
      (forall x, rolls_back conn (k (Throw x))) ->
      serving e total (Suspended k) seen [Opened e conn]
  | serving_unopened seen rest s :
      total = rows_seen seen ++ rest ->
      first_end seen = Some s ->
      s <> SeenNext StopIteration ->
      serving e total Finished seen []
  | serving_closed conn commit seen rest s :
      total = rows_seen seen ++ rest ->
      first_end seen = Some s ->
      (commit = true <-> s = SeenNext StopIteration) ->
      serving e total Finished seen [Closed conn commit; Opened e conn].

(** What the consumer of a generator sees when it takes every row of
    [rows] and then finds the end. *)
Definition all_rows (rows : list Row) : list Seen :=
  map (fun row => SeenNext (Yielded row)) rows ++ [SeenNext StopIteration].

(** A character of ASCII other than a bracket. *)
Definition plain (c : ascii) : bool :=
  (code c <? 128) && negb (code c =? 91) && negb (code c =? 93).

(** The call that executes [query] on the connection [conn]. *)
Definition cursor_of (v : Variant) (conn : handle) (query : string) : Call :=
  match v with
  | Blocking => Connection_execute conn query
  | NonBlocking => Connection_stream conn query
  end.

(** The events of an [execute] that delivers [n] rows and is exhausted, the
    most recent first: the scope is opened on the engine, the query
    executed, a row fetched [n + 1] times, the cursor closed by
    [Boilerplate.execute] only, and the scope closed with a commit. *)
Definition exhausted_events (v : Variant) (e conn cursor : handle) (query : string)
    (n : nat) : list Event :=
  [Did (Engine_begin_exit conn true)]
  ++ (match v with Blocking => [Did (Result_close cursor)] | NonBlocking => [] end)
  ++ repeat (Did (Result_next cursor)) (S n)
  ++ [Made (cursor_of v conn query) cursor; Made (Engine_begin e) conn].

(** Calling the instance: [database()] (resp. [await database()]). *)
Definition call_of (v : Variant) : M unit :=
  match v with
  | Blocking => Boilerplate.__call__
  | NonBlocking => AsyncBoilerplate.__call__
  end.
(** * Construction *)

Ltac unfold_init :=
  unfold Boilerplate.__init__, AsyncBoilerplate.__init__, urlparse, kwargs_setitem,
    bind, ret, setattr, getattr, raise_new.

(** C1, at concrete inputs: a URL of scheme sqlite is refused when the
    session argument is [True], and when [urlparse] finds its netloc
    malformed; and when the scheme is refused the flag [__create_tables] and
    the dict [__engine_kwargs] have been assigned.  *)
Lemma C1_counterexample :
  (scheme_of "sqlite://" = "sqlite" /\
   exists e,
     snd (Boilerplate.__init__ "sqlite://" false false (ArgBool true)
            (no_attributes, calm [])) = Raise e) /\
  (scheme_of "sqlite://[" = "sqlite" /\
   exists e,
     snd (Boilerplate.__init__ "sqlite://[" false false (ArgBool false)
            (no_attributes, calm [])) = Raise e /\
     exc_msg e = "Invalid IPv6 URL") /\
  (let out := Boilerplate.__init__ "mysql://host/db" false true (ArgBool false)
                (no_attributes, calm []) in
   (exists e, snd out = Raise e) /\
   __create_tables (fst (fst out)) = Some true /\
   __engine_kwargs (fst (fst out)) = Some (initial_kwargs false)) /\
  (let out := AsyncBoilerplate.__init__ "mysql://host/db" false true (ArgBool false)
                (no_attributes, calm []) in
   (exists e, snd out = Raise e) /\
   __create_tables (fst (fst out)) = Some true /\
   __engine_kwargs (fst (fst out)) = Some (initial_kwargs false)).
Proof.
  repeat split; try reflexivity; eexists; vm_compute; try split; reflexivity.
Qed.

Lemma init_outcomes url echo create_tables sess w :
  construction_outcome Blocking url echo create_tables sess w
    (Boilerplate.__init__ url echo create_tables sess (no_attributes, w)) /\
  construction_outcome NonBlocking url echo create_tables sess w
    (AsyncBoilerplate.__init__ url echo create_tables sess (no_attributes, w)) /\
  session_argument_outcome w url sess
    (Boilerplate.__init__ url echo create_tables sess (no_attributes, w)) /\
  session_argument_outcome w url sess
    (AsyncBoilerplate.__init__ url echo create_tables sess (no_attributes, w)).
Proof.
  unfold construction_outcome, session_argument_outcome, accepted.
  unfold_init.
  destruct (invalid_url w url) as [msg|] eqn:E0;
    [ | destruct (lower (scheme (parsed url)) =? "postgresql")%string eqn:E1;
        [ | destruct (lower (scheme (parsed url)) =? "sqlite")%string eqn:E2 ] ];
    destruct sess as [[|]|s]; cbn;
    repeat match goal with
           | |- _ /\ _ => split
           | |- _ <-> _ => split
           | |- _ -> _ => intro
           | H : _ /\ _ |- _ => destruct H
           end;
    try reflexivity; try discriminate; try congruence;
    try solve [ eauto 12
              | eexists; repeat split; first [ reflexivity | congruence | intros; discriminate ] ].
  all: match goal with H : Some _ = Some _ |- _ => injection H as <- end.
  all: eexists; repeat split.
Qed.

(** C1 (as amended): for every URL, a constructor of either class succeeds
    exactly when [urlparse] does not refuse the URL, the scheme, in lower
    case, is [postgresql] or [sqlite], and the session argument is not
    [True].  When [urlparse] refuses the URL the constructor raises its
    [ValueError]: [Boilerplate] has then assigned nothing, [AsyncBoilerplate]
    the flag and the options.  For any other scheme it raises a [ValueError]
    whose message ends with the scheme in quotes, and then [url], [session]
    and [engine] are unassigned while [__create_tables] and
    [__engine_kwargs] hold the values given.  No call is made. *)
Theorem C1_construction_outcome :
  forall url echo create_tables sess w,
    construction_outcome Blocking url echo create_tables sess w
      (Boilerplate.__init__ url echo create_tables sess (no_attributes, w)) /\
    construction_outcome NonBlocking url echo create_tables sess w
      (AsyncBoilerplate.__init__ url echo create_tables sess (no_attributes, w)).
Proof.
  intros url echo create_tables sess w.
  destruct (init_outcomes url echo create_tables sess w) as (B & A & _).
  split; assumption.
Qed.

(** C9: the session argument, of type [Union[bool, Session]], is stored only
    when it is not [True]: [True] is refused with a [ValueError], and a
    stored value that is truthy is a session object. *)
Theorem C9_session_argument :
  forall url echo create_tables sess w,
    session_argument_outcome w url sess
      (Boilerplate.__init__ url echo create_tables sess (no_attributes, w)) /\
    session_argument_outcome w url sess
      (AsyncBoilerplate.__init__ url echo create_tables sess (no_attributes, w)).
Proof.
  intros url echo create_tables sess w.
  destruct (init_outcomes url echo create_tables sess w) as (_ & _ & B & A).
  split; assumption.
Qed.

(** What [AsyncBoilerplate.__init__] stores for an accepted URL: the new
    prefix followed by the URL without its first 13 (resp. 9) characters. *)
Lemma async_init_stored_url u echo create_tables sess w :
  snd (AsyncBoilerplate.__init__ u echo create_tables sess (no_attributes, w)) = Ok tt ->
  url (fst (fst (AsyncBoilerplate.__init__ u echo create_tables sess (no_attributes, w))))
  = Some (if (lower (scheme (parsed u)) =? "postgresql")%string
          then ("postgresql+asyncpg://" ++ slice_from 13 u)%string
          else ("sqlite+aiosqlite://" ++ slice_from 9 u)%string).
Proof.
  unfold_init.
  destruct (invalid_url w u) as [msg|] eqn:E0;
    [ | destruct (lower (scheme (parsed u)) =? "postgresql")%string eqn:E1;
        [ | destruct (lower (scheme (parsed u)) =? "sqlite")%string eqn:E2 ] ];
    destruct sess as [[|]|s]; cbn; intros H; try discriminate H; reflexivity.
Qed.

(** For a URL that starts with [sqlite://] or [postgresql://] and that
    [urlparse] does not refuse, the rewrite keeps what follows as it is. *)
Lemma async_init_keeps_remainder rest echo create_tables w :
  (invalid_url w ("sqlite://" ++ rest) = None ->
   url (fst (fst (AsyncBoilerplate.__init__ ("sqlite://" ++ rest) echo create_tables
                    (ArgBool false) (no_attributes, w))))
   = Some ("sqlite+aiosqlite://" ++ rest)%string) /\
  (invalid_url w ("postgresql://" ++ rest) = None ->
   url (fst (fst (AsyncBoilerplate.__init__ ("postgresql://" ++ rest) echo create_tables
                    (ArgBool false) (no_attributes, w))))
   = Some ("postgresql+asyncpg://" ++ rest)%string).
Proof.
  split; intros H; unfold_init; rewrite H; reflexivity.
Qed.

(** C7, at the URLs [sqlite:/tmp/app.db] and [postgresql:db]: both are
    accepted, their scheme being followed by a colon only, and what is stored
    is the new prefix followed by the URL cut at the fixed offset: the text
    after the scheme loses its first two characters. *)
Theorem C7_rewrite_cuts_at_fixed_offset :
  (let out := AsyncBoilerplate.__init__ "sqlite:/tmp/app.db" false false (ArgBool false)
                (no_attributes, calm []) in
   scheme_of "sqlite:/tmp/app.db" = "sqlite" /\
   snd out = Ok tt /\
   url (fst (fst out)) = Some "sqlite+aiosqlite://mp/app.db") /\
  (let out := AsyncBoilerplate.__init__ "postgresql:db" false false (ArgBool false)
                (no_attributes, calm []) in
   scheme_of "postgresql:db" = "postgresql" /\
   snd out = Ok tt /\
   url (fst (fst out)) = Some "postgresql+asyncpg://") /\
  (let out := Boilerplate.__init__ "sqlite:/tmp/app.db" false false (ArgBool false)
                (no_attributes, calm []) in
   snd out = Ok tt /\
   url (fst (fst out)) = Some "sqlite:/tmp/app.db").
Proof.
  repeat split; vm_compute; reflexivity.
Qed.

(** * disconnect *)

Ltac unfold_disconnect :=
  unfold Boilerplate.disconnect, AsyncBoilerplate.disconnect, call_close,
    call_dispose, lib_do, bind, ret, getattr, raise_new.

(** With the constructor's [session = False] still in place, [disconnect]
    raises: [False is not None] holds and [False] has no [close]. *)
Lemma disconnect_with_session_False self w :
  session self = Some (PyBool false) ->
  exists e,
    Boilerplate.disconnect (self, w) = ((self, alloc w), Raise e) /\
    AsyncBoilerplate.disconnect (self, w) = ((self, alloc w), Raise e) /\
    exc_class e = AttributeError.
Proof.
  intros H. unfold_disconnect.
  destruct self as [ct kw u sess eng]; cbn in *; subst sess; cbn.
  eexists. repeat split.
Qed.

(** On a connected instance [disconnect] closes the session, disposes the
    engine, logs and returns; the attributes stay, so this holds again for a
    second call. *)
Lemma disconnect_connected self w s e :
  session self = Some (PySession s) ->
  engine self = Some (PyEngine e) ->
  let w' := record (Did (LOGGER_info "Disconnected from database"))
              (record (Did (Engine_dispose e)) (record (Did (Session_close s)) w)) in
  Boilerplate.disconnect (self, w) = ((self, w'), Ok tt) /\
  AsyncBoilerplate.disconnect (self, w) = ((self, w'), Ok tt).
Proof.
  intros Hs He. unfold_disconnect.
  destruct self as [ct kw u sess eng]; cbn in *; subst sess eng; cbn.
  split; reflexivity.
Qed.

(** C2, on an instance that was constructed and never connected: in both
    classes [disconnect()] raises [AttributeError], and nothing is closed,
    disposed or logged. *)
Theorem C2_disconnect_before_connect_raises :
  (let st := fst (Boilerplate.__init__ "sqlite://" false false (ArgBool false)
                    (no_attributes, calm [])) in
   exists e,
     snd (Boilerplate.disconnect st) = Raise e /\
     exc_class e = AttributeError /\
     trace (snd (fst (Boilerplate.disconnect st))) = []) /\
  (let st := fst (AsyncBoilerplate.__init__ "sqlite://" false false (ArgBool false)
                    (no_attributes, calm [])) in
   exists e,
     snd (AsyncBoilerplate.disconnect st) = Raise e /\
     exc_class e = AttributeError /\
     trace (snd (fst (AsyncBoilerplate.disconnect st))) = []).
Proof.
  split; eexists; repeat split; vm_compute; reflexivity.
Qed.

(** * connect *)

Arguments issubclass : simpl never.
Arguments isinstance : simpl never.
Arguments added_since : simpl never.

Lemma added_since_app before after l :
  trace after = l ++ trace before -> added_since before after = l.
Proof.
  intros H. unfold added_since. rewrite H, length_app, Nat.add_sub.
  rewrite firstn_app, Nat.sub_diag, firstn_all. simpl. apply app_nil_r.
Qed.

(** The list [l] with [t = l ++ base], read off a trace built by consing. *)
Ltac prefix_of t base :=
  lazymatch t with
  | base => constr:(@nil Event)
  | ?ev :: ?t' => let p := prefix_of t' base in constr:(ev :: p)
  end.

Ltac compute_added :=
  repeat match goal with
         | |- context [added_since ?w0 ?w1] =>
             let t := eval cbn in (trace w1) in
             let b := eval cbn in (trace w0) in
             let p := prefix_of t b in
             rewrite (added_since_app w0 w1 p) by reflexivity
         end.

Ltac unfold_connect :=
  unfold connect_of, Boilerplate.connect, AsyncBoilerplate.connect,
    Boilerplate.connect_anew, AsyncBoilerplate.connect_anew,
    AsyncBoilerplate.provision_schema, with_, try_finally, try_except,
    raise_from, raise_new_from, raise, call_close, call_begin, as_engine,
    lib_new, lib_call, lib_raise_or, lib_do, bind, ret, getattr, setattr,
    raise_new in *.

(** One step of running a method body kept in the hypothesis [H]: a case
    distinction on what the oracle, an [isinstance] test or an attribute
    gives. *)
Ltac exec_in H :=
  cbn in H;
  repeat (
    match type of H with
    | context [match lib_raises ?w ?c ?t with _ => _ end] =>
        let E := fresh "Eraise" in
        destruct (lib_raises w c t) as [[? ?]|] eqn:E
    | context [if isinstance ?e ?c then _ else _] =>
        let E := fresh "Einst" in
        destruct (isinstance e c) eqn:E
    | context [match ?x with _ => _ end] => is_var x; destruct x
    | context [if ?x then _ else _] => is_var x; destruct x
    | context [if negb ?x then _ else _] => is_var x; destruct x
    | context [if truthy ?x then _ else _] =>
        let E := fresh "Etruthy" in
        destruct (truthy x) eqn:E
    end; cbn in H).

Lemma connect_not_forced v self w s :
  session self = Some s -> truthy s = true ->
  connect_of v false (self, w) = ((self, w), Ok s).
Proof.
  intros Hs Ht. destruct self as [ct kw u sess eng]; cbn in Hs; subst sess.
  destruct v; unfold_connect; cbn; rewrite Ht; reflexivity.
Qed.

Lemma connect_forced_result v self w self' w' r :
  session self <> None ->
  connect_of v true (self, w) = ((self', w'), Ok r) ->
  exists kw u s' e',
    __engine_kwargs self = Some kw /\ url self = Some u /\
    r = PySession s' /\
    session self' = Some (PySession s') /\
    engine self' = Some (PyEngine e') /\
    next_id w <= e' /\ next_id w <= s' /\ e' < next_id w' /\ s' < next_id w' /\
    In (Made (create_engine_of v u kw) e') (added_since w w') /\
    In (Made (make_session e') s') (added_since w w').
Proof.
  intros Hs H.
  destruct self as [ct kw u [sess|] eng]; [ | now elim Hs ]; clear Hs.
  destruct v; unfold_connect; exec_in H; try discriminate H.
  all: inversion H; subst; clear H; cbn.
  all: do 4 eexists; repeat split; try reflexivity; cbn; try lia.
  all: compute_added; cbn; tauto.
Qed.

Lemma connect_forced_succeeds v self w :
  initialized self -> never_fails w ->
  exists self' w' r, connect_of v true (self, w) = ((self', w'), Ok r).
Proof.
  intros (Hct & Hkw & Hu & Hs & He) Hnf.
  destruct self as [[ct|] [kw|] [u|] [sess|] [eng|]]; cbn in *; try congruence.
  destruct v; unfold_connect; cbn;
    destruct (truthy sess); cbn;
    repeat (rewrite Hnf; cbn);
    destruct ct; cbn;
    repeat (rewrite Hnf; cbn);
    do 3 eexists; reflexivity.
Qed.

(** C3: on an instance whose session is set, [connect()] without [force]
    returns that session and changes neither the instance nor the world,
    whatever the class; when [connect(force=True)] returns, it returns a new
    session object, stored in [session], and [engine] holds a new engine,
    both created during the call and different from what was stored; and it
    does return when no library call fails. *)
Theorem C3_connect_idempotent_unless_forced :
  forall v self w s,
    session self = Some s -> truthy s = true ->
    known w (session self) -> known w (engine self) ->
    connect_of v false (self, w) = ((self, w), Ok s) /\
    (forall self' w' r,
       connect_of v true (self, w) = ((self', w'), Ok r) ->
       exists s' e',
         r = PySession s' /\
         session self' = Some r /\
         engine self' = Some (PyEngine e') /\
         r <> s /\
         Some (PyEngine e') <> engine self /\
         In (Made (make_session e') s') (added_since w w') /\
         exists u kw, In (Made (create_engine_of v u kw) e') (added_since w w')) /\
    (initialized self -> never_fails w ->
     exists self' w' r, connect_of v true (self, w) = ((self', w'), Ok r)).
Proof.
  intros v self w s Hs Ht Hks Hke. split; [ | split ].
  - apply connect_not_forced; assumption.
  - intros self' w' r H.
    apply connect_forced_result in H; [ | congruence ].
    destruct H as (kw & u & s' & e' & _ & _ & -> & Hs' & He' & Hle & Hls & _ & _ & Hce & Hms).
    exists s', e'. repeat split; try assumption.
    + intros <-. rewrite Hs in Hks. cbn in Hks. lia.
    + intros E. rewrite <- E in Hke. cbn in Hke. lia.
    + exists u, kw. exact Hce.
  - apply connect_forced_succeeds.
Qed.

(** C3 on the instance of the tests, once it is connected. *)
Lemma C3_witness :
  connect_of Blocking false (connected Blocking (calm []))
  = (connected Blocking (calm []), Ok (PySession 1)) /\
  exists self' w' r,
    connect_of Blocking true (connected Blocking (calm [])) = ((self', w'), Ok r).
Proof.
  destruct (C3_connect_idempotent_unless_forced Blocking
              (fst (connected Blocking (calm []))) (snd (connected Blocking (calm [])))
              (PySession 1))
    as (H1 & _ & H3).
  - reflexivity.
  - reflexivity.
  - vm_compute. lia.
  - vm_compute. lia.
  - split.
    + exact H1.
    + apply H3.
      * vm_compute. repeat split; discriminate.
      * intros c t. reflexivity.
Defined.

Ltac compute_added_in H :=
  repeat match type of H with
         | context [added_since ?w0 ?w1] =>
             let t := eval cbn in (trace w1) in
             let b := eval cbn in (trace w0) in
             let p := prefix_of t b in
             rewrite (added_since_app w0 w1 p) in H by reflexivity
         end.

(** The members of an explicit list, one by one. *)
Ltac split_In H :=
  cbn in H;
  repeat match type of H with
         | _ \/ _ => destruct H as [H | H]
         end;
  try contradiction.

(** C4, at a concrete input: [create_engine] raises an [OperationalError];
    what [connect] raises is that very object, not a wrapper around it. *)
Lemma C4_counterexample :
  let original := {| exc_id := 0; exc_class := OperationalError;
                     exc_msg := "database failure"; exc_cause := None |} in
  let out := Boilerplate.connect false
               (constructed Blocking (faulty is_create_engine OperationalError)) in
  (exists c, In (Threw c original) (trace (snd (fst out)))) /\
  exists e,
    snd out = Raise e /\
    exc_id e = exc_id original /\
    exc_class e = exc_class original.
Proof.
  split.
  - eexists. vm_compute. right. left. reflexivity.
  - eexists. vm_compute. repeat split.
Qed.

(** C4 (as amended): a library call of [connect] has raised an instance of
    [SQLAlchemyError].  When the call is inside the [try] block, the error
    is logged and [connect] raises that same exception object with itself
    as [__cause__]; unless it is an [OperationalError] of the
    schema-creation step of [AsyncBoilerplate.connect], which is logged and
    replaced by a new [RuntimeError] with the error as [__cause__].  When
    the call is the one that [AsyncBoilerplate.connect] makes after its
    [try] block, the error is raised as it is and is not logged. *)
Theorem C4_database_errors_are_logged_and_reraised :
  forall v force self w self' w' r c original,
    connect_of v force (self, w) = ((self', w'), r) ->
    In (Threw c original) (added_since w w') ->
    isinstance original SQLAlchemyError = true ->
    (guarded v c = true -> wrapped v c original = false ->
     r = Raise (reraised original) /\
     In (Did (LOGGER_error original)) (added_since w w')) /\
    (wrapped v c original = true ->
     exists e,
       r = Raise e /\
       exc_class e = RuntimeError /\
       exc_cause e = Some (exc_id original) /\
       exc_id e <> exc_id original /\
       In (Did (LOGGER_error original)) (added_since w w')) /\
    (guarded v c = false ->
     v = NonBlocking /\ is_make_session c = true /\
     r = Raise original /\
     ~ In (Did (LOGGER_error original)) (added_since w w')).
Proof.
  intros v force self w self' w' r c original H Hin Hsql.
  destruct self as [ct kw u sess eng].
  destruct v; unfold_connect; exec_in H.
  all: inversion H; subst; clear H.
  all: compute_added_in Hin; split_In Hin; try discriminate Hin.
  all: inversion Hin; subst; clear Hin.
  all: compute_added.
  all: try congruence.
  all: unfold wrapped, guarded, schema_step; cbn [andb].
  all: repeat split; intros.
  all: try discriminate; try congruence.
  all: try (cbn; tauto).
  all: try (eexists; repeat split; cbn; try reflexivity; try lia; tauto).
  all: try (cbn; intuition discriminate).
Qed.

(** C4 on the instance of the tests when [create_engine] raises an
    [OperationalError]. *)
Lemma C4_witness :
  let st := constructed Blocking (faulty is_create_engine OperationalError) in
  let out := Boilerplate.connect false st in
  let original := {| exc_id := 0; exc_class := OperationalError;
                     exc_msg := "database failure"; exc_cause := None |} in
  snd out = Raise (reraised original) /\
  In (Did (LOGGER_error original)) (added_since (snd st) (snd (fst out))).
Proof.
  intros st out original.
  destruct (C4_database_errors_are_logged_and_reraised Blocking false
              (fst st) (snd st) (fst (fst out)) (snd (fst out)) (snd out)
              (create_engine "sqlite://" (sqlite_kwargs false)) original)
    as (Hreraised & _ & _).
  - reflexivity.
  - vm_compute. right. left. reflexivity.
  - reflexivity.
  - apply Hreraised; reflexivity.
Defined.
(** C8, at a concrete input: the schema-creation step raises a
    [ProgrammingError]; [connect] raises that very object, and no
    [RuntimeError]. *)
Lemma C8_counterexample :
  let original := {| exc_id := 2; exc_class := ProgrammingError;
                     exc_msg := "database failure"; exc_cause := None |} in
  let out := AsyncBoilerplate.connect false
               (constructed NonBlocking (faulty is_create_all ProgrammingError)) in
  (exists c, schema_step c = true /\ In (Threw c original) (trace (snd (fst out)))) /\
  snd out = Raise (reraised original) /\
  exc_class (reraised original) <> RuntimeError.
Proof.
  split; [ | split ].
  - eexists. split; [ | vm_compute; right; right; left; reflexivity ]. reflexivity.
  - vm_compute. reflexivity.
  - discriminate.
Qed.

(** C8 (as amended): in [AsyncBoilerplate.connect], an error thrown in the
    schema-creation step is logged and replaced by a new [RuntimeError] with
    the error as [__cause__] exactly when it is an [OperationalError]; any
    other error thrown there, and any error thrown by another call of
    [connect], an [OperationalError] included, is raised as the object it
    is. *)
Theorem C8_schema_errors_by_place_and_class :
  forall force self w self' w' r c original,
    AsyncBoilerplate.connect force (self, w) = ((self', w'), r) ->
    In (Threw c original) (added_since w w') ->
    (schema_step c = true -> isinstance original OperationalError = true ->
     exists e,
       r = Raise e /\
       exc_class e = RuntimeError /\
       exc_cause e = Some (exc_id original) /\
       exc_msg e = exc_msg original /\
       exc_id e <> exc_id original /\
       In (Did (LOGGER_error original)) (added_since w w')) /\
    (schema_step c = true -> isinstance original OperationalError = false ->
     exists e, r = Raise e /\ exc_id e = exc_id original /\
               exc_class e = exc_class original) /\
    (schema_step c = false ->
     exists e, r = Raise e /\ exc_id e = exc_id original /\
               exc_class e = exc_class original).
Proof.
  intros force self w self' w' r c original H Hin.
  destruct self as [ct kw u sess eng].
  unfold_connect; exec_in H.
  all: inversion H; subst; clear H.
  all: compute_added_in Hin; split_In Hin; try discriminate Hin.
  all: inversion Hin; subst; clear Hin.
  all: compute_added.
  all: repeat split; intros; try discriminate; try congruence.
  all: try (eexists; repeat split; cbn; try reflexivity; try lia; tauto).
Qed.

(** C8 on the instance of the tests when [create_all] raises an
    [OperationalError]. *)
Lemma C8_witness :
  let st := constructed NonBlocking (faulty is_create_all OperationalError) in
  let out := AsyncBoilerplate.connect false st in
  exists e,
    snd out = Raise e /\
    exc_class e = RuntimeError /\
    exc_cause e = Some 2 /\
    exc_id e <> 2.
Proof.
  intros st out.
  pose (original := {| exc_id := 2; exc_class := OperationalError;
                       exc_msg := "database failure"; exc_cause := None |}).
  destruct (C8_schema_errors_by_place_and_class false
              (fst st) (snd st) (fst (fst out)) (snd (fst out)) (snd out)
              (create_all 1) original)
    as (Hwrapped & _ & _).
  - reflexivity.
  - vm_compute. right. right. left. reflexivity.
  - destruct Hwrapped as (e & He & Hc & Hcause & _ & Hid & _).
    + reflexivity.
    + reflexivity.
    + exists e. repeat split; assumption.
Defined.
(** Whenever [Boilerplate.connect] builds a session and returns, the last
    thing it did was to close that session: the [finally] clause runs
    [self.session.close()] on the session just stored. *)
Lemma blocking_connect_closes_its_session force self w self' w' r :
  Boilerplate.connect force (self, w) = ((self', w'), Ok r) ->
  added_since w w' <> [] ->
  exists s,
    r = PySession s /\
    session self' = Some (PySession s) /\
    In (Made (make_session (pred s)) s) (added_since w w') /\
    hd_error (added_since w w') = Some (Did (Session_close s)).
Proof.
  intros H Hadded.
  destruct self as [ct kw u sess eng].
  unfold_connect; exec_in H; try discriminate H.
  all: inversion H; subst; clear H.
  all: revert Hadded; compute_added; intros Hadded; try congruence.
  all: eexists; repeat split; cbn; tauto.
Qed.

(** [AsyncBoilerplate.connect] closes no session. *)
Lemma non_blocking_connect_closes_nothing force self w self' w' r s :
  AsyncBoilerplate.connect force (self, w) = ((self', w'), r) ->
  ~ In (Did (Session_close s)) (added_since w w').
Proof.
  intros H Hin.
  destruct self as [ct kw u sess eng].
  unfold_connect; exec_in H.
  all: inversion H; subst; clear H.
  all: compute_added_in Hin; split_In Hin; discriminate Hin.
Qed.

(** C6, on a new instance for an in-memory SQLite database with a library
    that never fails: [Boilerplate.connect()] returns the session it stored,
    and the most recent call at that point is [close()] on this session;
    no other session was made.  [AsyncBoilerplate.connect()] on the same
    input returns its session without closing it. *)
Theorem C6_blocking_connect_returns_closed_session :
  (let out := Boilerplate.connect false (constructed Blocking (calm [])) in
   snd out = Ok (PySession 1) /\
   session (fst (fst out)) = Some (PySession 1) /\
   trace (snd (fst out)) =
     [Did (Session_close 1); Made (make_session 0) 1; Did (sessionmaker 0 false);
      Did (create_all 0);
      Made (create_engine "sqlite://"
              [("echo", KwBool false); ("json_serializer", KwJsonDumps);
               ("poolclass", KwStaticPool);
               ("connect_args", KwDict [("check_same_thread", false)])]) 0;
      Did (LOGGER_info "Connecting to database")]) /\
  (let out := AsyncBoilerplate.connect false (constructed NonBlocking (calm [])) in
   snd out = Ok (PySession 2) /\
   session (fst (fst out)) = Some (PySession 2) /\
   hd_error (trace (snd (fst out))) = Some (Made (make_session 0) 2)).
Proof.
  repeat split; vm_compute; reflexivity.
Qed.
(** * execute *)

Lemma scope_log_app l1 l2 : scope_log (l1 ++ l2) = scope_log l1 ++ scope_log l2.
Proof.
  induction l1 as [|ev l1 IH]; [ reflexivity | ].
  destruct ev as [c|c h|c x]; destruct c; cbn; rewrite ?IH; reflexivity.
Qed.

Lemma scope_log_cursor_calls added :
  forallb (fun ev => cursor_call (event_call ev)) added = true ->
  scope_log added = [].
Proof.
  induction added as [|ev added IH]; [ reflexivity | ].
  cbn [forallb]. intros H. apply andb_prop in H. destruct H as [Hev Hrest].
  destruct ev as [c|c h|c x]; destruct c; try discriminate Hev; cbn; auto.
Qed.

Lemma cursor_calls_are_execute_calls added :
  forallb (fun ev => cursor_call (event_call ev)) added = true ->
  forallb (fun ev => execute_call (event_call ev)) added = true.
Proof.
  intros H. rewrite forallb_forall in *. intros ev Hin.
  unfold execute_call. rewrite (H ev Hin). reflexivity.
Qed.

Lemma grows_refl (ok : Call -> bool) w : grows ok w w [].
Proof.
  repeat split. apply Nat.le_refl.
Qed.

Lemma grows_alloc (ok : Call -> bool) w : grows ok w (alloc w) [].
Proof.
  repeat split. cbn. apply Nat.le_succ_diag_r.
Qed.

Lemma grows_trans (ok : Call -> bool) w1 w2 w3 added1 added2 :
  grows ok w1 w2 added1 -> grows ok w2 w3 added2 ->
  grows ok w1 w3 (added2 ++ added1).
Proof.
  intros (Ht1 & Hok1 & Hn1) (Ht2 & Hok2 & Hn2). repeat split.
  - rewrite Ht2, Ht1, app_assoc. reflexivity.
  - rewrite forallb_app, Hok1, Hok2. reflexivity.
  - eapply Nat.le_trans; eassumption.
Qed.

Lemma grows_cursor_execute w w' added :
  grows cursor_call w w' added -> grows execute_call w w' added.
Proof.
  intros (Ht & Hok & Hn). repeat split; try assumption.
  apply cursor_calls_are_execute_calls. exact Hok.
Qed.

Lemma grows_one (ok : Call -> bool) w ev :
  ok (event_call ev) = true -> grows ok w (record ev w) [ev].
Proof.
  intros Hev. repeat split; cbn.
  - rewrite Hev. reflexivity.
  - apply Nat.le_refl.
Qed.

Lemma grows_one_alloc (ok : Call -> bool) w ev :
  ok (event_call ev) = true -> grows ok w (record ev (alloc w)) [ev].
Proof.
  intros Hev. repeat split; cbn.
  - rewrite Hev. reflexivity.
  - apply Nat.le_succ_diag_r.
Qed.

Lemma adds_only_lib_do (ok : Call -> bool) c : ok c = true -> adds_only ok (lib_do c).
Proof.
  intros Hc self w. cbn. split; [ reflexivity | ].
  exists [Did c]. now apply grows_one.
Qed.

Lemma adds_only_lib_call (ok : Call -> bool) c : ok c = true -> adds_only ok (lib_call c).
Proof.
  intros Hc self w. unfold lib_call, lib_raise_or, lib_do.
  destruct (lib_raises w c (trace w)) as [[cls msg]|]; cbn.
  - split; [ reflexivity | ]. eexists. now apply grows_one_alloc.
  - split; [ reflexivity | ]. eexists. now apply grows_one.
Qed.

Lemma adds_only_open_cursor (ok : Call -> bool) c query :
  ok c = true -> adds_only ok (open_cursor c query).
Proof.
  intros Hc self w. unfold open_cursor, lib_raise_or.
  destruct (lib_raises w c (trace w)) as [[cls msg]|]; cbn.
  - split; [ reflexivity | ]. eexists. now apply grows_one_alloc.
  - split; [ reflexivity | ]. eexists. now apply grows_one_alloc.
Qed.

(** Leaving an inner [with] block that closes a cursor. *)
Lemma with_exit_stops cursor g :
  stops g -> stops (with_exit (fun _ => lib_do (Result_close cursor)) g).
Proof.
  induction 1 as [ | e | A m k Hm Hk IH ]; cbn.
  - constructor; [ now apply adds_only_lib_do | intros [[]|x]; constructor ].
  - constructor; [ now apply adds_only_lib_do | intros [[]|x]; constructor ].
  - constructor; [ exact Hm | exact IH ].
Qed.

Lemma with_exit_streams cursor g :
  streams g -> streams (with_exit (fun _ => lib_do (Result_close cursor)) g).
Proof.
  induction 1 as [ | e | A m k Hm Hk IH | row k Hnext IHnext Hthrow ]; cbn.
  - constructor; [ now apply adds_only_lib_do | intros [[]|x]; constructor ].
  - constructor; [ now apply adds_only_lib_do | intros [[]|x]; constructor ].
  - constructor; [ exact Hm | exact IH ].
  - constructor; [ exact IHnext | intros e; apply with_exit_stops, Hthrow ].
Qed.

(** Leaving the [with] block of the transactional scope. *)
Lemma with_exit_unwinds conn g :
  stops g ->
  unwinds conn (with_exit (fun commit => lib_do (Engine_begin_exit conn commit)) g).
Proof.
  induction 1 as [ | e | A m k Hm Hk IH ]; cbn.
  - apply unwinds_exit. intros [[]|x]; constructor.
  - apply unwinds_exit. intros [[]|x]; constructor.
  - apply unwinds_do; [ exact Hm | exact IH ].
Qed.

Lemma with_exit_in_scope conn g :
  streams g ->
  in_scope conn (with_exit (fun commit => lib_do (Engine_begin_exit conn commit)) g).
Proof.
  induction 1 as [ | e | A m k Hm Hk IH | row k Hnext IHnext Hthrow ]; cbn.
  - apply in_scope_exit. intros [[]|x]; constructor.
  - apply in_scope_exit. intros [[]|x]; constructor.
  - apply in_scope_do; [ exact Hm | exact IH ].
  - apply in_scope_yield; [ exact IHnext | intros e; apply with_exit_unwinds, Hthrow ].
Qed.

Lemma yield_rows_streams cursor rows : streams (yield_rows cursor rows).
Proof.
  induction rows as [|row rows IH]; cbn.
  - constructor; [ now apply adds_only_lib_call | intros [[]|x]; constructor ].
  - constructor; [ now apply adds_only_lib_call | ].
    intros [[]|x]; [ | constructor ].
    unfold yield. apply streams_yield; [ exact IH | intros e; constructor ].
Qed.

Lemma execute_body_transactional v query :
  match execute_of v query with
  | Created body => transactional body
  | _ => False
  end.
Proof.
  destruct v; cbn.
  - unfold Boilerplate.execute_body. apply transactional_intro. intros conn.
    unfold gwith. constructor; [ now apply adds_only_open_cursor | ].
    intros [[cursor rows]|x]; [ | constructor ].
    apply with_exit_streams, yield_rows_streams.
  - unfold AsyncBoilerplate.execute_body. apply transactional_intro. intros conn.
    constructor; [ now apply adds_only_open_cursor | ].
    intros [[cursor rows]|x]; [ | constructor ].
    apply yield_rows_streams.
Qed.

(** What a step that satisfies [adds_only] gives, in the form the lemmas on
    [run] use it. *)
Lemma adds_only_run (ok : Call -> bool) A (m : M A) self w :
  adds_only ok m ->
  exists w' r added,
    m (self, w) = ((self, w'), r) /\ grows ok w w' added.
Proof.
  intros Hm. destruct (Hm self w) as (Hself & added & Hgrows).
  destruct (m (self, w)) as [[self1 w1] r]. cbn in *. subst self1.
  exists w1, r, added. auto.
Qed.

Lemma run_stops g :
  stops g ->
  forall self w,
  exists w' p added,
    run g (self, w) = ((self, w'), p) /\
    grows cursor_call w w' added /\
    no_yield p.
Proof.
  induction 1 as [ | e | A m k Hm Hk IH ]; intros self w.
  - exists w, PReturn, []. cbn. auto using grows_refl.
  - exists w, (PRaise e), []. cbn. auto using grows_refl.
  - destruct (adds_only_run _ _ m self w Hm) as (w1 & r & added1 & Em & Hg1).
    destruct (IH r self w1) as (w2 & p & added2 & Er & Hg2 & Hp).
    exists w2, p, (added2 ++ added1). cbn. rewrite Em, Er.
    eauto using grows_trans.
Qed.

Lemma run_ended g st :
  ended g -> exists p, run g st = (st, p) /\ no_yield p.
Proof.
  intros [ | e ]; eexists; cbn; split; [ reflexivity | exact I | reflexivity | exact I ].
Qed.

Lemma run_unwinds conn g :
  unwinds conn g ->
  forall self w,
  exists w' p added commit,
    run g (self, w) = ((self, w'), p) /\
    grows execute_call w w' added /\
    scope_log added = [Closed conn commit] /\
    no_yield p.
Proof.
  induction 1 as [ commit k Hk | A m k Hm Hk IH ]; intros self w.
  - destruct (run_ended (k (Ok tt)) (self, record (Did (Engine_begin_exit conn commit)) w) (Hk _))
      as (p & Er & Hp).
    exists (record (Did (Engine_begin_exit conn commit)) w), p,
      [Did (Engine_begin_exit conn commit)], commit.
    cbn. rewrite Er. repeat split; try assumption. apply Nat.le_refl.
  - destruct (adds_only_run _ _ m self w Hm) as (w1 & r & added1 & Em & Hg1).
    destruct (IH r self w1) as (w2 & p & added2 & commit & Er & Hg2 & Hlog & Hp).
    exists w2, p, (added2 ++ added1), commit. cbn. rewrite Em, Er.
    split; [ reflexivity | split; [ | split; [ | exact Hp ] ] ].
    + eapply grows_trans; [ apply grows_cursor_execute | ]; eassumption.
    + destruct Hg1 as (_ & Hok1 & _).
      rewrite scope_log_app, Hlog, (scope_log_cursor_calls _ Hok1). reflexivity.
Qed.

Lemma run_in_scope conn g :
  in_scope conn g ->
  forall self w,
  exists w' p added,
    run g (self, w) = ((self, w'), p) /\
    grows execute_call w w' added /\
    match p with
    | PYield _ k =>
        scope_log added = [] /\
        in_scope conn (k Next) /\ (forall x, unwinds conn (k (Throw x)))
    | _ => exists commit, scope_log added = [Closed conn commit]
    end.
Proof.
  induction 1 as [ commit k Hk | A m k Hm Hk IH | row k Hnext IHnext Hthrow ];
    intros self w.
  - destruct (run_ended (k (Ok tt)) (self, record (Did (Engine_begin_exit conn commit)) w) (Hk _))
      as (p & Er & Hp).
    exists (record (Did (Engine_begin_exit conn commit)) w), p,
      [Did (Engine_begin_exit conn commit)].
    cbn. rewrite Er.
    split; [ reflexivity | split; [ now apply grows_one | ] ].
    destruct p; [ exists commit; reflexivity | exists commit; reflexivity | contradiction ].
  - destruct (adds_only_run _ _ m self w Hm) as (w1 & r & added1 & Em & Hg1).
    destruct (IH r self w1) as (w2 & p & added2 & Er & Hg2 & Hp).
    exists w2, p, (added2 ++ added1). cbn. rewrite Em, Er.
    split; [ reflexivity | split ].
    + eapply grows_trans; [ apply grows_cursor_execute | ]; eassumption.
    + destruct Hg1 as (_ & Hok1 & _).
      rewrite scope_log_app, (scope_log_cursor_calls _ Hok1), app_nil_r. exact Hp.
  - exists w, (PYield row k), []. cbn. repeat split; try assumption. apply Nat.le_refl.
Qed.

(** The first [next] on a generator made by [execute], on an instance whose
    [engine] is the engine [e]. *)
Lemma run_transactional e body :
  transactional body ->
  forall self w,
  engine self = Some (PyEngine e) ->
  exists w' p added,
    run body (self, w) = ((self, w'), p) /\
    grows execute_call w w' added /\
    match p with
    | PYield _ k =>
        (exists conn,
           scope_log added = [Opened e conn] /\
           in_scope conn (k Next) /\ (forall x, unwinds conn (k (Throw x))))
    | _ =>
        scope_log added = [] \/
        exists conn commit, scope_log added = [Closed conn commit; Opened e conn]
    end.
Proof.
  intros [inner Hinner] self w He.
  unfold gwith. cbn [run].
  unfold bind, getattr, call_begin. rewrite He.
  unfold lib_new, lib_raise_or.
  destruct (lib_raises w (Engine_begin e) (trace w)) as [[cls msg]|] eqn:Eraise.
  - eexists _, _, [Threw (Engine_begin e) _]. cbn.
    split; [ reflexivity | split; [ now apply grows_one_alloc | left; reflexivity ] ].
  - cbn [run].
    destruct (run_in_scope (next_id w) _ (with_exit_in_scope (next_id w) _ (Hinner (next_id w)))
                self (record (Made (Engine_begin e) (next_id w)) (alloc w)))
      as (w2 & p & added & Er & Hg & Hp).
    exists w2, p, (added ++ [Made (Engine_begin e) (next_id w)]).
    rewrite Er. split; [ reflexivity | split ].
    + eapply grows_trans; [ | exact Hg ]. now apply grows_one_alloc.
    + rewrite scope_log_app. cbn.
      destruct p as [ | x | row k ].
      * right. destruct Hp as (commit & Hlog). rewrite Hlog.
        exists (next_id w), commit. reflexivity.
      * right. destruct Hp as (commit & Hlog). rewrite Hlog.
        exists (next_id w), commit. reflexivity.
      * destruct Hp as (Hlog & Hn & Ht'). rewrite Hlog.
        exists (next_id w). repeat split; assumption.
Qed.

Lemma next_tracks e gen log self w :
  tracks e gen log ->
  engine self = Some (PyEngine e) ->
  exists w' gen' p added,
    next gen (self, w) = ((self, w'), gen', p) /\
    grows execute_call w w' added /\
    tracks e gen' (scope_log added ++ log) /\
    match p with Yielded _ => True | _ => gen' = Finished end.
Proof.
  intros Hgen He.
  destruct Hgen as [ body Hbody | conn k Hnext Hthrow | | conn commit ].
  - destruct (run_transactional e body Hbody self w He)
      as (w' & p & added & Er & Hg & Hp).
    cbn [next]. rewrite Er.
    destruct p as [ | x | row k ]; cbn [settle].
    + exists w', Finished, StopIteration, added.
      split; [ reflexivity | split; [ exact Hg | split; [ | reflexivity ] ] ].
      rewrite app_nil_r.
      destruct Hp as [ -> | (conn & commit & ->) ]; constructor.
    + exists w', Finished, (Raised x), added.
      split; [ reflexivity | split; [ exact Hg | split; [ | reflexivity ] ] ].
      rewrite app_nil_r.
      destruct Hp as [ -> | (conn & commit & ->) ]; constructor.
    + exists w', (Suspended k), (Yielded row), added.
      split; [ reflexivity | split; [ exact Hg | split; [ | exact I ] ] ].
      rewrite app_nil_r.
      destruct Hp as (conn & -> & Hn & Hth). constructor; assumption.
  - destruct (run_in_scope conn _ Hnext self w) as (w' & p & added & Er & Hg & Hp).
    cbn [next]. rewrite Er.
    destruct p as [ | x | row k' ]; cbn [settle].
    + exists w', Finished, StopIteration, added.
      split; [ reflexivity | split; [ exact Hg | split; [ | reflexivity ] ] ].
      destruct Hp as (commit & ->). constructor.
    + exists w', Finished, (Raised x), added.
      split; [ reflexivity | split; [ exact Hg | split; [ | reflexivity ] ] ].
      destruct Hp as (commit & ->). constructor.
    + exists w', (Suspended k'), (Yielded row), added.
      split; [ reflexivity | split; [ exact Hg | split; [ | exact I ] ] ].
      destruct Hp as (-> & Hn & Hth). constructor; assumption.
  - exists w, Finished, StopIteration, []. cbn.
    split; [ reflexivity | split; [ apply grows_refl | split; [ constructor | reflexivity ] ] ].
  - exists w, Finished, StopIteration, []. cbn.
    split; [ reflexivity | split; [ apply grows_refl | split; [ constructor | reflexivity ] ] ].
Qed.

Lemma close_tracks e gen log self w :
  tracks e gen log ->
  exists w' r added,
    close gen (self, w) = ((self, w'), Finished, r) /\
    grows execute_call w w' added /\
    tracks e Finished (scope_log added ++ log).
Proof.
  intros Hgen.
  destruct Hgen as [ body Hbody | conn k Hnext Hthrow | | conn commit ].
  - exists w, (Ok tt), []. cbn.
    split; [ reflexivity | split; [ apply grows_refl | constructor ] ].
  - cbn [close].
    destruct (run_unwinds conn _
                (Hthrow {| exc_id := next_id w; exc_class := GeneratorExit;
                           exc_msg := ""; exc_cause := None |})
                self (alloc w))
      as (w' & p & added & commit & Er & Hg & Hlog & Hp).
    rewrite Er.
    assert (Hg' : grows execute_call w w' added).
    { rewrite <- (app_nil_r added).
      eapply grows_trans; [ apply grows_alloc | exact Hg ]. }
    destruct p as [ | x | row k' ]; [ | | contradiction ].
    + exists w', (Ok tt), added.
      split; [ reflexivity | split; [ exact Hg' | ] ].
      rewrite Hlog. constructor.
    + destruct (isinstance x GeneratorExit).
      * exists w', (Ok tt), added.
        split; [ reflexivity | split; [ exact Hg' | ] ].
        rewrite Hlog. constructor.
      * exists w', (Raise x), added.
        split; [ reflexivity | split; [ exact Hg' | ] ].
        rewrite Hlog. constructor.
  - exists w, (Ok tt), []. cbn.
    split; [ reflexivity | split; [ apply grows_refl | constructor ] ].
  - exists w, (Ok tt), []. cbn.
    split; [ reflexivity | split; [ apply grows_refl | constructor ] ].
Qed.

(** A generator that has ended yields nothing more and makes no call. *)
Lemma drive_finished ops st :
  exists seen,
    drive ops Finished st = (st, Finished, seen) /\ rows_seen seen = [].
Proof.
  induction ops as [|[|] ops (seen & IH & Hrows)]; cbn.
  - exists []. split; reflexivity.
  - rewrite IH. eexists. split; [ reflexivity | exact Hrows ].
  - rewrite IH. eexists. split; [ reflexivity | exact Hrows ].
Qed.

Lemma drive_tracks e ops :
  forall gen log self w,
    tracks e gen log ->
    engine self = Some (PyEngine e) ->
    exists w' gen' seen added,
      drive ops gen (self, w) = ((self, w'), gen', seen) /\
      grows execute_call w w' added /\
      (ops = [] -> added = []) /\
      tracks e gen' (scope_log added ++ log) /\
      (gen = Finished \/ saw_the_end seen = true -> gen' = Finished).
Proof.
  induction ops as [|op ops IH]; intros gen log self w Hgen He.
  - exists w, gen, [], []. cbn.
    split; [ reflexivity | split; [ apply grows_refl | split; [ reflexivity | split ] ] ].
    + exact Hgen.
    + intros [ H | H ]; [ exact H | discriminate H ].
  - destruct op.
    + destruct (next_tracks e gen log self w Hgen He)
        as (w1 & gen1 & p & added1 & En & Hg1 & Hgen1 & Hp).
      destruct (IH gen1 _ self w1 Hgen1 He)
        as (w2 & gen2 & seen & added2 & Ed & Hg2 & _ & Hgen2 & Hend).
      exists w2, gen2, (SeenNext p :: seen), (added2 ++ added1).
      cbn [drive]. rewrite En, Ed.
      split; [ reflexivity | split; [ | split; [ | split ] ] ].
      * eapply grows_trans; eassumption.
      * discriminate.
      * rewrite scope_log_app, <- app_assoc. exact Hgen2.
      * intros [ -> | Hsaw ].
        -- apply Hend. left.
           cbn in En. inversion En. reflexivity.
        -- apply Hend. cbn in Hsaw. destruct p; auto.
    + destruct (close_tracks e gen log self w Hgen)
        as (w1 & r & added1 & Ec & Hg1 & Hgen1).
      destruct (IH Finished _ self w1 Hgen1 He)
        as (w2 & gen2 & seen & added2 & Ed & Hg2 & _ & Hgen2 & Hend).
      exists w2, gen2, (SeenClose r :: seen), (added2 ++ added1).
      cbn [drive]. rewrite Ec, Ed.
      split; [ reflexivity | split; [ | split; [ | split ] ] ].
      * eapply grows_trans; eassumption.
      * discriminate.
      * rewrite scope_log_app, <- app_assoc. exact Hgen2.
      * intros _. apply Hend. left. reflexivity.
Qed.




(** The three ways an iteration ends, on two rows: the consumer exhausts
    the generator, leaves after the first row, or the second fetch fails.
    Each time the scope on the engine 0 is opened once and closed once. *)
Example execute_exhausted :
  let out := drive [DoNext; DoNext; DoNext] (Boilerplate.execute "q")
               (connected Blocking (calm [["a"]; ["b"]])) in
  snd out = [SeenNext (Yielded ["a"]); SeenNext (Yielded ["b"]); SeenNext StopIteration] /\
  scope_log (added_since (snd (connected Blocking (calm [["a"]; ["b"]])))
               (snd (fst (fst out)))) = [Closed 2 true; Opened 0 2].
Proof. split; vm_compute; reflexivity. Qed.

Example execute_left_early :
  let out := drive [DoNext; DoClose; DoNext] (AsyncBoilerplate.execute "q")
               (connected NonBlocking (calm [["a"]; ["b"]])) in
  snd out = [SeenNext (Yielded ["a"]); SeenClose (Ok tt); SeenNext StopIteration] /\
  scope_log (added_since (snd (connected NonBlocking (calm [["a"]; ["b"]])))
               (snd (fst (fst out)))) = [Closed 3 false; Opened 0 3].
Proof. split; vm_compute; reflexivity. Qed.

Example execute_fails_midway :
  let out := drive [DoNext; DoNext; DoNext] (Boilerplate.execute "q")
               (connected Blocking (breaks_after_first_row [["a"]; ["b"]])) in
  snd out = [SeenNext (Yielded ["a"]);
             SeenNext (Raised {| exc_id := 4; exc_class := OperationalError;
                                 exc_msg := "connection lost"; exc_cause := None |});
             SeenNext StopIteration] /\
  scope_log (added_since (snd (connected Blocking (breaks_after_first_row [["a"]; ["b"]])))
               (snd (fst (fst out)))) = [Closed 2 false; Opened 0 2].
Proof. split; vm_compute; reflexivity. Qed.

(** * Forced reconnection *)

(** What any [connect] does to the attributes and the world: it disposes no
    engine, closes no session but the one it leaves in [session], and what
    it stores is new. *)
Lemma connect_effects v force self w self' w' r :
  connect_of v force (self, w) = ((self', w'), r) ->
  exists added,
    trace w' = added ++ trace w /\
    next_id w <= next_id w' /\
    (forall e, ~ In (Did (Engine_dispose e)) added) /\
    (forall s, In (Did (Session_close s)) added -> session self' = Some (PySession s)) /\
    (session self' = session self \/
     exists s, session self' = Some (PySession s) /\ next_id w <= s) /\
    (engine self' = engine self \/
     exists e, engine self' = Some (PyEngine e) /\ next_id w <= e).
Proof.
  intros H.
  destruct self as [ct kw u sess eng].
  destruct v; unfold_connect; exec_in H.
  all: inversion H; subst; clear H.
  all: eexists; split; [ cbn; 
         match goal with
         | |- ?t = _ ++ ?b => let p := prefix_of t b in instantiate (1 := p); reflexivity
         end | ].
  all: cbn; repeat split; try lia.
  all: try (intros ? Hin; split_In Hin; discriminate Hin).
  all: try (intros ? Hin; split_In Hin; try discriminate Hin;
            inversion Hin; subst; reflexivity).
  all: try (left; reflexivity).
  all: right; eexists; split; [ reflexivity | lia ].
Qed.
(** What any [disconnect] does: it closes nothing but the session in
    [session] and disposes nothing but the engine in [engine]. *)
Lemma disconnect_effects v self w self' w' r :
  disconnect_of v (self, w) = ((self', w'), r) ->
  self' = self /\
  exists added,
    trace w' = added ++ trace w /\
    next_id w <= next_id w' /\
    (forall e, In (Did (Engine_dispose e)) added -> engine self = Some (PyEngine e)) /\
    (forall s, In (Did (Session_close s)) added -> session self = Some (PySession s)).
Proof.
  intros H.
  destruct self as [ct kw u sess eng].
  destruct v;
    unfold disconnect_of, Boilerplate.disconnect, AsyncBoilerplate.disconnect,
      call_dispose in H;
    unfold_connect; exec_in H.
  all: inversion H; subst; clear H.
  all: split; [ reflexivity | ].
  all: eexists; split; [ cbn;
         match goal with
         | |- ?t = _ ++ ?b => let p := prefix_of t b in instantiate (1 := p); reflexivity
         end | ].
  all: cbn; repeat split; try lia.
  all: intros ? Hin; split_In Hin; try discriminate Hin;
       inversion Hin; subst; reflexivity.
Qed.

(** A generator made by [execute], whatever [engine] holds: it leaves the
    instance as it is and makes calls on the scope and the cursor only. *)
Lemma run_without_engine body self w :
  transactional body ->
  (forall e, engine self <> Some (PyEngine e)) ->
  exists x, run body (self, w) = ((self, alloc w), PRaise x).
Proof.
  intros [inner Hinner] He.
  unfold gwith. cbn [run]. unfold bind, getattr, call_begin, raise_new.
  destruct (engine self) as [[ | b | s | e ]|]; cbn; eauto.
  now elim (He e).
Qed.

Lemma drive_execute v query ops self w :
  exists w' gen' seen added,
    drive ops (execute_of v query) (self, w) = ((self, w'), gen', seen) /\
    grows execute_call w w' added.
Proof.
  pose proof (execute_body_transactional v query) as Hb.
  destruct (engine self) as [[ | b | s | e ]|] eqn:He.
  4: { destruct (execute_of v query) as [body| |] eqn:Eb; try contradiction.
       destruct (drive_tracks e ops (Created body) [] self w) as
         (w' & gen' & seen & added & Ed & Hg & _).
       - constructor. exact Hb.
       - exact He.
       - exists w', gen', seen, added. split; assumption. }
  all: destruct (execute_of v query) as [body| |] eqn:Eb; try contradiction.
  all: destruct ops as [|[|] ops].
  all: try (exists w, (Created body), [], []; split; [ reflexivity | apply grows_refl ]).
  all: try (destruct (run_without_engine body self w Hb) as (x & Er);
            [ intros e0; congruence | ];
            destruct (drive_finished ops (self, alloc w)) as (seen & Ed & _);
            exists (alloc w), Finished, (SeenNext (Raised x) :: seen), [];
            cbn [drive next]; rewrite Er; cbn [settle]; rewrite Ed;
            split; [ reflexivity | apply grows_alloc ]).
  all: destruct (drive_finished ops (self, w)) as (seen & Ed & _);
       exists w, Finished, (SeenClose (Ok tt) :: seen), [];
       cbn [drive close]; rewrite Ed;
       split; [ reflexivity | apply grows_refl ].
Qed.

Lemma execute_calls_release_nothing added h :
  forallb (fun ev => execute_call (event_call ev)) added = true ->
  ~ released h added /\ (forall e, ~ In (Did (Engine_dispose e)) added).
Proof.
  intros Hok. rewrite forallb_forall in Hok. split.
  - intros [Hin | Hin]; apply Hok in Hin; discriminate Hin.
  - intros e Hin. apply Hok in Hin. discriminate Hin.
Qed.

(** One method call: an object that the instance does not hold is not
    released by it and is not held after it; and only [disconnect] disposes
    an engine, the one in [engine]. *)
Lemma invoke_effects v m st :
  exists added,
    trace (snd (invoke v m st)) = added ++ trace (snd st) /\
    (forall h, not_held h st ->
       not_held h (invoke v m st) /\ ~ released h added) /\
    (forall e, In (Did (Engine_dispose e)) added ->
       m = call_disconnect /\ engine (fst st) = Some (PyEngine e)).
Proof.
  destruct st as [self w]. destruct m as [force | | query ops]; cbn [invoke].
  - destruct (connect_of v force (self, w)) as [[self' w'] r] eqn:Ec.
    destruct (connect_effects v force self w self' w' r Ec)
      as (added & Ht & Hn & Hdispose & Hclose & Hsession & Hengine).
    exists added. cbn [fst snd]. split; [ exact Ht | split ].
    + intros h (Hnext & Hs & He). cbn [fst snd] in *.
      assert (Hafter : not_held h (self', w')).
      { split; [ | split ]; cbn [fst snd].
        - lia.
        - intros Hh. destruct Hsession as [E | (s & E & Hle)].
          + apply Hs. rewrite <- E. exact Hh.
          + rewrite E in Hh. inversion Hh; subst. lia.
        - intros Hh. destruct Hengine as [E | (e & E & Hle)].
          + apply He. rewrite <- E. exact Hh.
          + rewrite E in Hh. inversion Hh; subst. lia. }
      split; [ exact Hafter | ].
      intros [Hin | Hin].
      * apply Hclose in Hin. destruct Hafter as (_ & Hs' & _). exact (Hs' Hin).
      * exact (Hdispose h Hin).
    + intros e Hin. elim (Hdispose e Hin).
  - destruct (disconnect_of v (self, w)) as [[self' w'] r] eqn:Ed.
    destruct (disconnect_effects v self w self' w' r Ed)
      as (-> & added & Ht & Hn & Hdispose & Hclose).
    exists added. cbn [fst snd]. split; [ exact Ht | split ].
    + intros h (Hnext & Hs & He). cbn [fst snd] in *.
      split; [ split; [ | split ]; cbn [fst snd]; auto; lia | ].
      intros [Hin | Hin].
      * exact (Hs (Hclose h Hin)).
      * exact (He (Hdispose h Hin)).
    + intros e Hin. split; [ reflexivity | exact (Hdispose e Hin) ].
  - destruct (drive_execute v query ops self w)
      as (w' & gen' & seen & added & Ed & Ht & Hok & Hn).
    rewrite Ed. exists added. cbn [fst snd]. split; [ exact Ht | split ].
    + intros h (Hnext & Hs & He). cbn [fst snd] in *.
      split; [ split; [ | split ]; cbn [fst snd]; auto; lia | ].
      apply (execute_calls_release_nothing added h Hok).
    + intros e Hin.
      elim (proj2 (execute_calls_release_nothing added 0 Hok) e Hin).
Qed.

Lemma released_app h l1 l2 : released h (l1 ++ l2) <-> released h l1 \/ released h l2.
Proof.
  unfold released. rewrite !in_app_iff. tauto.
Qed.

Lemma invoke_all_effects v ms :
  forall st h,
    not_held h st ->
    exists added,
      trace (snd (invoke_all v ms st)) = added ++ trace (snd st) /\
      ~ released h added.
Proof.
  induction ms as [|m ms IH]; intros st h Hfree; cbn [invoke_all].
  - exists []. split; [ reflexivity | ]. intros [[]|[]].
  - destruct (invoke_effects v m st) as (added1 & Ht1 & Hkeep & _).
    destruct (Hkeep h Hfree) as (Hfree1 & Hspare1).
    destruct (IH _ h Hfree1) as (added2 & Ht2 & Hspare2).
    exists (added2 ++ added1). split.
    + rewrite Ht2, Ht1, app_assoc. reflexivity.
    + intros Hrel. apply released_app in Hrel. tauto.
Qed.

(** C10: take a [connect(force=True)] on an instance that holds a session.
    When it returns, [session] and [engine] hold a new session and a new
    engine.  Whether it returns or raises, a session or engine that was held
    before the call and is not held after it is neither closed nor disposed
    by that call, nor by any sequence of [connect], [disconnect] and
    [execute] calls that follows.  And whenever a method call disposes an
    engine, the call is [disconnect] and the engine is the one in
    [engine]. *)
Theorem C10_forced_reconnect_never_releases_old_handles :
  forall v self w self1 w1 r methods,
    session self <> None ->
    known w (session self) -> known w (engine self) ->
    connect_of v true (self, w) = ((self1, w1), r) ->
    (forall x, r = Ok x ->
       exists s1 e1,
         session self1 = Some (PySession s1) /\
         engine self1 = Some (PyEngine e1) /\
         (forall h, session self = Some (PySession h) \/
                    engine self = Some (PyEngine h) -> not_held h (self1, w1))) /\
    (forall h,
       session self = Some (PySession h) \/ engine self = Some (PyEngine h) ->
       not_held h (self1, w1) ->
       ~ released h (added_since w (snd (invoke_all v methods (self1, w1))))) /\
    (forall m st e,
       In (Did (Engine_dispose e)) (added_since (snd st) (snd (invoke v m st))) ->
       m = call_disconnect /\ engine (fst st) = Some (PyEngine e)).
Proof.
  intros v self w self1 w1 r methods Hset Hks Hke Hc.
  destruct (connect_effects v true self w self1 w1 r Hc)
    as (added1 & Ht1 & Hn1 & Hdispose & Hclose & _).
  assert (Hlt : forall h, session self = Some (PySession h) \/
                          engine self = Some (PyEngine h) -> h < next_id w).
  { intros h [E | E]; [ rewrite E in Hks | rewrite E in Hke ]; assumption. }
  split; [ | split ].
  - intros x ->.
    destruct (connect_forced_result v self w self1 w1 x Hset Hc)
      as (kw & u & s1 & e1 & _ & _ & _ & Hs1 & He1 & Hle & Hls & _ & _ & _ & _).
    exists s1, e1. split; [ exact Hs1 | split; [ exact He1 | ] ].
    intros h Hold. apply Hlt in Hold.
    split; [ | split ]; cbn [fst snd].
    + lia.
    + rewrite Hs1. intros E. inversion E; subst. lia.
    + rewrite He1. intros E. inversion E; subst. lia.
  - intros h Hold Hfree.
    assert (Hspare1 : ~ released h added1).
    { intros [Hin | Hin]; [ | exact (Hdispose h Hin) ].
      destruct Hfree as (_ & Hs & _). exact (Hs (Hclose h Hin)). }
    destruct (invoke_all_effects v methods (self1, w1) h Hfree)
      as (added2 & Ht2 & Hspare2).
    cbn [snd] in Ht2.
    rewrite (added_since_app w _ (added2 ++ added1)).
    + intros Hrel. apply released_app in Hrel. tauto.
    + rewrite Ht2, Ht1, app_assoc. reflexivity.
  - intros m st e Hin.
    destruct (invoke_effects v m st) as (added & Ht & _ & Honly).
    rewrite (added_since_app _ _ added Ht) in Hin.
    exact (Honly e Hin).
Qed.

(** C10 on the instance of the tests, connected, then reconnected by force
    and used further: the session 1 and the engine 0 of the first connection
    are never released. *)
Lemma C10_witness :
  let st := connected Blocking (calm []) in
  let out := Boilerplate.connect true st in
  let later := invoke_all Blocking
                 [call_disconnect; call_execute "SELECT 1" [DoNext; DoClose];
                  call_connect false; call_disconnect]
                 (fst (fst out), snd (fst out)) in
  (exists s1 e1,
     session (fst (fst out)) = Some (PySession s1) /\
     engine (fst (fst out)) = Some (PyEngine e1)) /\
  (released 1 (added_since (snd st) (snd later)) -> False) /\
  (released 0 (added_since (snd st) (snd later)) -> False).
Proof.
  intros st out later.
  destruct (C10_forced_reconnect_never_releases_old_handles Blocking
              (fst st) (snd st) (fst (fst out)) (snd (fst out)) (Ok (PySession 3))
              [call_disconnect; call_execute "SELECT 1" [DoNext; DoClose];
               call_connect false; call_disconnect])
    as (Hnew & Hold & _).
  - discriminate.
  - vm_compute; lia.
  - vm_compute; lia.
  - vm_compute; reflexivity.
  - destruct (Hnew (PySession 3) eq_refl) as (s1 & e1 & Hs1 & He1 & Hfree).
    split; [ exists s1, e1; split; assumption | split ].
    + apply Hold; [ left; vm_compute; reflexivity | ].
      apply Hfree. left. vm_compute. reflexivity.
    + apply Hold; [ right; vm_compute; reflexivity | ].
      apply Hfree. right. vm_compute. reflexivity.
Defined.

(** A forced reconnection that fails after the engine was replaced (the
    session factory raises): the engine 0 of the first connection is no
    longer held, and nothing that follows disposes it. *)
Example failed_reconnect_leaves_old_engine :
  let w := faulty (fun c => match c with
                            | sessionmaker 2 _ => true
                            | _ => false
                            end) OperationalError in
  let st := connected Blocking w in
  let out := Boilerplate.connect true st in
  engine (fst st) = Some (PyEngine 0) /\
  (exists e, snd out = Raise e) /\
  engine (fst (fst out)) = Some (PyEngine 2) /\
  added_since (snd (fst out)) (snd (invoke Blocking call_disconnect (fst out)))
  = [Did (LOGGER_info "Disconnected from database");
     Did (Engine_dispose 2); Did (Session_close 1)].
Proof.
  repeat split; try (eexists; vm_compute; reflexivity); vm_compute; reflexivity.
Qed.

(** After the forced reconnection of the witness, a [disconnect] releases the
    new session and engine, 3 and 2, and the old ones, 1 and 0, stay as they
    were. *)
Example forced_reconnect_then_disconnect :
  let st := connected Blocking (calm []) in
  let st1 := fst (Boilerplate.connect true st) in
  added_since (snd st1) (snd (invoke Blocking call_disconnect st1))
  = [Did (LOGGER_info "Disconnected from database");
     Did (Engine_dispose 2); Did (Session_close 3)].
Proof. vm_compute. reflexivity. Qed.
(** * The constructors, further *)

(** What a constructor that returns leaves behind. *)
Lemma init_returns :
  forall v u echo create_tables sess w self' w',
    init_of v u echo create_tables sess (no_attributes, w) = ((self', w'), Ok tt) ->
    w' = w /\
    __create_tables self' = Some create_tables /\
    session self' = Some (arg_value sess) /\
    engine self' = Some (no_engine v) /\
    (exists stored, url self' = Some stored /\ (v = Blocking -> stored = u)) /\
    __engine_kwargs self'
    = Some (if (lower (scheme (parsed u)) =? "postgresql")%string
            then initial_kwargs echo else sqlite_kwargs echo).
Proof.
  intros v u echo ct sess w self' w'.
  destruct v; cbn [init_of]; unfold_init;
    (destruct (invalid_url w u) as [msg|] eqn:E0;
     [ | destruct (lower (scheme (parsed u)) =? "postgresql")%string eqn:E1;
         [ | destruct (lower (scheme (parsed u)) =? "sqlite")%string eqn:E2 ] ]);
    destruct sess as [[|]|s]; cbn; intros H; try discriminate H;
    inversion H; subst; clear H; cbn;
    repeat split;
    try (eexists; split; [ reflexivity | intros Hv; first [ reflexivity | discriminate Hv ] ]).
Qed.

(** X1: a constructor that returns has touched nothing outside the
    instance and has assigned every attribute: [__create_tables] and
    [session] as given, [engine] to the class's placeholder, [url] (as given
    by [Boilerplate]), and the engine options chosen by the scheme. *)
Theorem init_postcondition :
  forall v u echo create_tables sess w self' w',
    init_of v u echo create_tables sess (no_attributes, w) = ((self', w'), Ok tt) ->
    w' = w /\
    __create_tables self' = Some create_tables /\
    session self' = Some (arg_value sess) /\
    engine self' = Some (no_engine v) /\
    (exists stored, url self' = Some stored /\ (v = Blocking -> stored = u)) /\
    __engine_kwargs self'
    = Some (if (lower (scheme (parsed u)) =? "postgresql")%string
            then initial_kwargs echo else sqlite_kwargs echo).
Proof. exact init_returns. Qed.

(** * connect and disconnect, further *)

(** The calls of a [connect] that goes past its early return and
    returns. *)
Lemma connect_anew_returns :
  forall v force self w self' w' r,
    connect_of v force (self, w) = ((self', w'), Ok r) ->
    connects_anew force self ->
    exists u kw ct,
      url self = Some u /\
      __engine_kwargs self = Some kw /\
      __create_tables self = Some ct /\
      let e := next_id w in
      let s := match v, ct with NonBlocking, true => S (S e) | _, _ => S e end in
      r = PySession s /\
      self' = with_session (PySession s) (with_engine (PyEngine e) self) /\
      next_id w' = S s /\
      added_since w w' =
        (match v with Blocking => [Did (Session_close s)] | NonBlocking => [] end)
        ++ [Made (make_session e) s;
            Did (sessionmaker e (match v with Blocking => false | NonBlocking => true end))]
        ++ (if ct then schema_calls v e else [])
        ++ [Made (create_engine_of v u kw) e;
            Did (LOGGER_info "Connecting to database")].
Proof.
  intros v force self w self' w' r H Hanew.
  destruct self as [ct kw u sess eng].
  destruct v; unfold_connect; exec_in H; try discriminate H.
  all: inversion H; subst; clear H.
  all: try (destruct Hanew as [Hf | (s0 & Hs0 & Ht0)];
            [ discriminate Hf
            | cbn in Hs0; inversion Hs0; subst; congruence ]).
  all: do 3 eexists; repeat split; compute_added; reflexivity.
Qed.

(** X2: the calls of a [connect] that goes past its early return and
    returns, in both classes: the log line, the engine made from [url] and
    [__engine_kwargs], the schema step exactly when [__create_tables] is
    set, the session factory, the session; [Boilerplate.connect] then closes
    that session.  The new engine and session are what [engine] and
    [session] hold. *)
Theorem connect_call_sequence :
  forall v force self w self' w' r,
    connect_of v force (self, w) = ((self', w'), Ok r) ->
    connects_anew force self ->
    exists u kw ct,
      url self = Some u /\
      __engine_kwargs self = Some kw /\
      __create_tables self = Some ct /\
      let e := next_id w in
      let s := match v, ct with NonBlocking, true => S (S e) | _, _ => S e end in
      r = PySession s /\
      self' = with_session (PySession s) (with_engine (PyEngine e) self) /\
      next_id w' = S s /\
      added_since w w' =
        (match v with Blocking => [Did (Session_close s)] | NonBlocking => [] end)
        ++ [Made (make_session e) s;
            Did (sessionmaker e (match v with Blocking => false | NonBlocking => true end))]
        ++ (if ct then schema_calls v e else [])
        ++ [Made (create_engine_of v u kw) e;
            Did (LOGGER_info "Connecting to database")].
Proof. exact connect_anew_returns. Qed.

(** X3: a [connect] that raises leaves [session], [url] and the options as
    they were; [engine] is as it was or holds an engine made by this call,
    which is not disposed; and a session is closed exactly when the class is
    [Boilerplate] and that session is the one held (its [finally] clause). *)
Theorem connect_failure_state :
  forall v force self w self' w' x,
    connect_of v force (self, w) = ((self', w'), Raise x) ->
    __create_tables self' = __create_tables self /\
    __engine_kwargs self' = __engine_kwargs self /\
    url self' = url self /\
    session self' = session self /\
    (engine self' = engine self \/
     exists e u kw,
       engine self' = Some (PyEngine e) /\
       In (Made (create_engine_of v u kw) e) (added_since w w')) /\
    (forall e, ~ In (Did (Engine_dispose e)) (added_since w w')) /\
    (forall s, In (Did (Session_close s)) (added_since w w') <->
               v = Blocking /\ session self = Some (PySession s)).
Proof.
  intros v force self w self' w' x H.
  destruct self as [ct kw u sess eng].
  destruct v; unfold_connect; exec_in H; try discriminate H.
  all: inversion H; subst; clear H.
  all: compute_added; cbn.
  all: repeat match goal with
              | |- _ /\ _ => split
              | |- _ <-> _ => split
              end.
  all: try reflexivity.
  all: try (left; reflexivity).
  all: try (right; do 3 eexists; split; [ reflexivity | cbn; tauto ]).
  all: try (intros ? Hin; split_In Hin; discriminate Hin).
  all: intros ?; split;
       [ intros Hin; split_In Hin; try discriminate Hin;
         inversion Hin; subst; split; reflexivity
       | intros (Hv & Hs);
         first [ discriminate Hv | discriminate Hs
               | inversion Hs; subst; cbn; tauto ] ].
Qed.

(** X1 on the SQLite URL of the tests. *)
Lemma init_postcondition_witness :
  let out := AsyncBoilerplate.__init__ "sqlite://" false true (ArgBool false)
               (no_attributes, calm []) in
  engine (fst (fst out)) = Some PyNone /\
  __engine_kwargs (fst (fst out)) = Some (sqlite_kwargs false).
Proof.
  intros out.
  destruct (init_postcondition NonBlocking "sqlite://" false true (ArgBool false)
              (calm []) (fst (fst out)) (snd (fst out)))
    as (_ & _ & _ & He & _ & Hkw).
  - vm_compute. reflexivity.
  - split; [ exact He | exact Hkw ].
Defined.

(** X2 on the instance of the tests. *)
Lemma connect_call_sequence_witness :
  let st := constructed NonBlocking (calm []) in
  let out := AsyncBoilerplate.connect false st in
  snd out = Ok (PySession 2) /\
  added_since (snd st) (snd (fst out))
  = [Made (make_session 0) 2; Did (sessionmaker 0 true);
     Did (LOGGER_info "Connected to database");
     Did (Engine_begin_exit 1 true); Did (create_all 1); Made (Engine_begin 0) 1;
     Made (create_async_engine "sqlite+aiosqlite://" (sqlite_kwargs false)) 0;
     Did (LOGGER_info "Connecting to database")].
Proof.
  intros st out.
  destruct (connect_call_sequence NonBlocking false
              (fst st) (snd st) (fst (fst out)) (snd (fst out)) (PySession 2))
    as (u & kw & ct & Hu & Hkw & Hct & _ & _ & _ & Hadded).
  - vm_compute. reflexivity.
  - right. exists (PyBool false). split; reflexivity.
  - split; [ vm_compute; reflexivity | ].
    rewrite Hadded.
    vm_compute in Hu, Hkw, Hct.
    injection Hu as <-. injection Hkw as <-. injection Hct as <-.
    reflexivity.
Defined.

(** X3 on the instance of the tests when [create_all] raises. *)
Lemma connect_failure_state_witness :
  let st := constructed Blocking (faulty is_create_all OperationalError) in
  let out := Boilerplate.connect false st in
  session (fst (fst out)) = session (fst st) /\
  engine (fst (fst out)) = Some (PyEngine 0).
Proof.
  intros st out.
  destruct (connect_failure_state Blocking false
              (fst st) (snd st) (fst (fst out)) (snd (fst out))
              (reraised {| exc_id := 1; exc_class := OperationalError;
                           exc_msg := "database failure"; exc_cause := None |}))
    as (_ & _ & _ & Hs & _).
  - vm_compute. reflexivity.
  - split; [ exact Hs | vm_compute; reflexivity ].
Defined.

(** * An invariant of the instance *)

Lemma known_mono w w' v :
  next_id w <= next_id w' -> known w v -> known w' v.
Proof.
  intros Hle. destruct v as [[ | b | s | e ]|]; cbn; intros H; try exact I; lia.
Qed.

Lemma init_well_formed v u echo create_tables sess w self' w' :
  init_of v u echo create_tables sess (no_attributes, w) = ((self', w'), Ok tt) ->
  known w (Some (arg_value sess)) ->
  well_formed (self', w').
Proof.
  intros H Hk.
  destruct (init_returns v u echo create_tables sess w self' w' H)
    as (-> & Hct & Hs & He & (stored & Hu & _) & Hkw).
  unfold well_formed, initialized. cbn [fst snd].
  rewrite Hct, Hs, He, Hu, Hkw.
  repeat split; try discriminate; try exact Hk.
  destruct v; exact I.
Qed.

Lemma connect_keeps_well_formed v force self w self' w' r :
  connect_of v force (self, w) = ((self', w'), r) ->
  well_formed (self, w) -> well_formed (self', w').
Proof.
  intros H ((Hct & Hkw & Hu & Hs & He) & Hks & Hke).
  destruct self as [[ct|] [kw|] [u|] [sess|] [eng|]]; cbn in *; try congruence.
  clear Hct Hkw Hu Hs He.
  destruct v; unfold_connect; exec_in H.
  all: inversion H; subst; clear H.
  all: unfold well_formed, initialized; cbn.
  all: repeat split; try discriminate; try lia.
  all: try (destruct sess; cbn in *; try exact I; lia).
  all: try (destruct eng as [ | | | ]; cbn in *; try exact I; lia).
  all: try (match goal with p : PyVal |- _ => destruct p; cbn in *; try exact I; lia end).
Qed.

Lemma invoke_keeps_well_formed v m st :
  well_formed st -> well_formed (invoke v m st).
Proof.
  destruct st as [self w]. intros Hwf.
  destruct m as [force | | query ops]; cbn [invoke].
  - destruct (connect_of v force (self, w)) as [[self' w'] r] eqn:Ec.
    exact (connect_keeps_well_formed v force self w self' w' r Ec Hwf).
  - destruct (disconnect_of v (self, w)) as [[self' w'] r] eqn:Ed.
    destruct (disconnect_effects v self w self' w' r Ed) as (-> & added & _ & Hn & _).
    destruct Hwf as (Hinit & Hks & Hke). cbn [fst snd] in *.
    split; [ exact Hinit | split; eapply known_mono; eassumption ].
  - destruct (drive_execute v query ops self w)
      as (w' & gen' & seen & added & Ed & _ & _ & Hn).
    rewrite Ed. destruct Hwf as (Hinit & Hks & Hke). cbn [fst snd] in *.
    split; [ exact Hinit | split; eapply known_mono; eassumption ].
Qed.

Lemma invoke_all_keeps_well_formed v methods :
  forall st, well_formed st -> well_formed (invoke_all v methods st).
Proof.
  induction methods as [|m methods IH]; intros st Hwf.
  - exact Hwf.
  - cbn [invoke_all]. apply IH, invoke_keeps_well_formed, Hwf.
Qed.

(** X4: on an instance that a constructor built, whatever sequence of
    [connect], [disconnect] and [execute] calls is made, returning or
    raising, every attribute stays assigned and the session and the engine
    held are objects that exist. *)
Theorem constructed_instance_stays_well_formed :
  forall v u echo create_tables sess w self w1 methods,
    init_of v u echo create_tables sess (no_attributes, w) = ((self, w1), Ok tt) ->
    known w (Some (arg_value sess)) ->
    well_formed (invoke_all v methods (self, w1)).
Proof.
  intros v u echo create_tables sess w self w1 methods H Hk.
  apply invoke_all_keeps_well_formed.
  exact (init_well_formed v u echo create_tables sess w self w1 H Hk).
Qed.

(** X4 on the instance of the tests. *)
Lemma constructed_instance_stays_well_formed_witness :
  well_formed
    (invoke_all Blocking
       [call_disconnect; call_connect true;
        call_execute "SELECT 1" [DoNext]; call_disconnect]
       (fst (constructed Blocking (calm [])), snd (constructed Blocking (calm [])))).
Proof.
  apply (constructed_instance_stays_well_formed Blocking "sqlite://" false true
           (ArgBool false) (calm [])).
  - vm_compute. reflexivity.
  - exact I.
Defined.

(** X5: after a [connect] that built a connection, [disconnect] closes that
    session, disposes that engine, logs and returns, and leaves the
    attributes as they are; so a second [disconnect] makes the same calls
    again, and a later [connect()] without [force] makes no call and returns
    the session that was closed. *)
Theorem connect_disconnect_connect :
  forall v force self w self1 w1 r,
    connect_of v force (self, w) = ((self1, w1), Ok r) ->
    connects_anew force self ->
    exists s e,
      r = PySession s /\
      engine self1 = Some (PyEngine e) /\
      let released_by_disconnect w :=
        record (Did (LOGGER_info "Disconnected from database"))
          (record (Did (Engine_dispose e)) (record (Did (Session_close s)) w)) in
      disconnect_of v (self1, w1) = ((self1, released_by_disconnect w1), Ok tt) /\
      disconnect_of v (self1, released_by_disconnect w1)
      = ((self1, released_by_disconnect (released_by_disconnect w1)), Ok tt) /\
      connect_of v false (self1, released_by_disconnect w1)
      = ((self1, released_by_disconnect w1), Ok (PySession s)).
Proof.
  intros v force self w self1 w1 r Hc Hanew.
  destruct (connect_anew_returns v force self w self1 w1 r Hc Hanew)
    as (u & kw & ct & _ & _ & _ & Hr & Hself & _).
  eexists _, (next_id w). split; [ exact Hr | ].
  assert (Hs : session self1 = Some r) by (rewrite Hself, Hr; reflexivity).
  assert (He : engine self1 = Some (PyEngine (next_id w))) by (rewrite Hself; reflexivity).
  rewrite Hr in Hs.
  split; [ exact He | ]. cbn zeta.
  split; [ | split ].
  - destruct v; apply (disconnect_connected self1 w1 _ _ Hs He).
  - destruct v; apply (disconnect_connected self1 _ _ _ Hs He).
  - apply connect_not_forced; [ exact Hs | reflexivity ].
Qed.

(** X5 on the instance of the tests. *)
Lemma connect_disconnect_connect_witness :
  let st := connected Blocking (calm []) in
  connect_of Blocking false (invoke Blocking call_disconnect st)
  = (invoke Blocking call_disconnect st, Ok (PySession 1)).
Proof.
  intros st.
  destruct (connect_disconnect_connect Blocking false
              (fst (constructed Blocking (calm []))) (snd (constructed Blocking (calm [])))
              (fst st) (snd st) (PySession 1))
    as (s & e & Hr & He & Hd & _ & Hc).
  - vm_compute. reflexivity.
  - right. exists (PyBool false). split; reflexivity.
  - injection Hr as <-.
    assert (e = 0) as -> by (vm_compute in He; congruence).
    cbn [invoke disconnect_of connect_of] in *.
    change (fst st, snd st) with st in Hd.
    rewrite Hd. cbn [fst]. exact Hc.
Defined.

(** X6: an instance constructed with a session of the caller's.
    [connect()] returns that session and makes no call, so no engine is
    made.  [AsyncBoilerplate.disconnect] then closes the session and
    returns; [Boilerplate.disconnect] closes the session and then raises
    [AttributeError], its [engine] being [False]. *)
Theorem presupplied_session :
  forall v u echo create_tables s w self1 w1,
    init_of v u echo create_tables (ArgSession s) (no_attributes, w)
    = ((self1, w1), Ok tt) ->
    connect_of v false (self1, w1) = ((self1, w1), Ok (PySession s)) /\
    match v with
    | Blocking =>
        exists x,
          disconnect_of v (self1, w1)
          = ((self1, alloc (record (Did (Session_close s)) w1)), Raise x) /\
          exc_class x = AttributeError
    | NonBlocking =>
        disconnect_of v (self1, w1)
        = ((self1, record (Did (LOGGER_info "Disconnected from database"))
                     (record (Did (Session_close s)) w1)), Ok tt)
    end.
Proof.
  intros v u echo create_tables s w self1 w1 H.
  destruct (init_returns v u echo create_tables (ArgSession s) w self1 w1 H)
    as (_ & _ & Hs & He & _).
  cbn [arg_value] in Hs. split.
  - apply connect_not_forced; [ exact Hs | reflexivity ].
  - destruct self1 as [ct kw u1 sess eng]. cbn in Hs, He. subst sess eng.
    destruct v; cbn [disconnect_of no_engine]; unfold_disconnect; cbn.
    + eexists. split; reflexivity.
    + reflexivity.
Qed.

(** X6 on an instance for SQLite given the session 7. *)
Lemma presupplied_session_witness :
  let st := fst (Boilerplate.__init__ "sqlite://" false false (ArgSession 7)
                   (no_attributes, calm [])) in
  connect_of Blocking false (fst st, snd st) = ((fst st, snd st), Ok (PySession 7)).
Proof.
  intros st.
  destruct (presupplied_session Blocking "sqlite://" false false 7 (calm [])
              (fst st) (snd st)) as (Hc & _).
  - vm_compute. reflexivity.
  - exact Hc.
Defined.

(** X7: as long as no [connect] has made an engine, the first [next] on a
    generator of [execute] raises [AttributeError]; no call is made and the
    generator has ended. *)
Theorem execute_without_engine :
  forall v query self w,
    engine self = Some (no_engine v) ->
    exists x,
      next (execute_of v query) (self, w) = ((self, alloc w), Finished, Raised x) /\
      exc_class x = AttributeError.
Proof.
  intros v query self w He.
  destruct v; cbn [execute_of no_engine] in *;
    unfold Boilerplate.execute, AsyncBoilerplate.execute,
      Boilerplate.execute_body, AsyncBoilerplate.execute_body, gwith;
    cbn [next run]; unfold bind, getattr, call_begin, raise_new;
    rewrite He; cbn; eexists; split; reflexivity.
Qed.

(** X7 on the instance of the tests before [connect]. *)
Lemma execute_without_engine_witness :
  exists x,
    next (Boilerplate.execute "SELECT 1") (constructed Blocking (calm []))
    = ((fst (constructed Blocking (calm [])), alloc (snd (constructed Blocking (calm [])))),
       Finished, Raised x) /\
    exc_class x = AttributeError.
Proof.
  apply (execute_without_engine Blocking "SELECT 1"
           (fst (constructed Blocking (calm []))) (snd (constructed Blocking (calm [])))).
  vm_compute. reflexivity.
Defined.

(** * The instance as a context manager *)

(** How a [with] block on a fresh instance ends. *)
Lemma managed_outcome :
  forall v A (body : M A) self w,
    (forall st, fst (fst (body st)) = fst st) ->
    session self = Some (PyBool false) ->
    match connect_of v false (self, w) with
    | (st1, Raise x) => managed v body (self, w) = (st1, Raise x)
    | (st1, Ok r) =>
        exists s e,
          r = PySession s /\
          engine (fst st1) = Some (PyEngine e) /\
          managed v body (self, w)
          = ((fst st1,
              record (Did (LOGGER_info "Disconnected from database"))
                (record (Did (Engine_dispose e))
                   (record (Did (Session_close s)) (snd (fst (body st1)))))),
             snd (body st1))
    end.
Proof.
  intros v A body self w Hbody Hs.
  assert (Henter : enter_of v = (connect_of v false ;; ret tt)) by (destruct v; reflexivity).
  assert (Hexit : exit_of v = disconnect_of v) by (destruct v; reflexivity).
  unfold managed, with_. rewrite Henter, Hexit. unfold bind, ret, raise. cbv beta.
  destruct (connect_of v false (self, w)) as [[self1 w1] [r | x]] eqn:Ec;
    [ | reflexivity ].
  destruct (connect_anew_returns v false self w self1 w1 r Ec)
    as (u & kw & ct & _ & _ & _ & Hr & Hself & _).
  { right. exists (PyBool false). split; [ exact Hs | reflexivity ]. }
  eexists _, (next_id w). split; [ exact Hr | ].
  assert (Hs1 : session self1 = Some r) by (rewrite Hself, Hr; reflexivity).
  assert (He1 : engine self1 = Some (PyEngine (next_id w)))
    by (rewrite Hself; reflexivity).
  rewrite Hr in Hs1. split; [ exact He1 | ].
  pose proof (Hbody (self1, w1)) as Hsame.
  destruct (body (self1, w1)) as [[self2 w2] r2]. cbn [fst snd] in *. subst self2.
  destruct (disconnect_connected self1 w2 _ _ Hs1 He1) as [HB HA].
  destruct r2 as [a | x]; destruct v; cbn [disconnect_of];
    rewrite ?HB, ?HA; reflexivity.
Qed.

(** X8: a [with] block on an instance that was never connected, with a body
    that leaves the attributes alone.  When [connect] raises, the block
    raises the same, the body does not run and nothing is released.  When
    [connect] returns, the body runs and then, whether the body returned or
    raised, the session is closed, the engine disposed and the line logged,
    and the block ends as the body did. *)
Theorem managed_block :
  forall v A (body : M A) self w,
    (forall st, fst (fst (body st)) = fst st) ->
    session self = Some (PyBool false) ->
    match connect_of v false (self, w) with
    | (st1, Raise x) => managed v body (self, w) = (st1, Raise x)
    | (st1, Ok r) =>
        exists s e,
          r = PySession s /\
          engine (fst st1) = Some (PyEngine e) /\
          managed v body (self, w)
          = ((fst st1,
              record (Did (LOGGER_info "Disconnected from database"))
                (record (Did (Engine_dispose e))
                   (record (Did (Session_close s)) (snd (fst (body st1)))))),
             snd (body st1))
    end.
Proof. exact managed_outcome. Qed.

(** X8 on the instance of the tests, with a body that raises. *)
Lemma managed_block_witness :
  let boom := {| exc_id := 99; exc_class := OSError; exc_msg := "boom";
                 exc_cause := None |} in
  let self := fst (constructed Blocking (calm [])) in
  let w := snd (constructed Blocking (calm [])) in
  match connect_of Blocking false (self, w) with
  | (st1, Raise x) => managed Blocking (@raise unit boom) (self, w) = (st1, Raise x)
  | (st1, Ok r) =>
      exists s e,
        r = PySession s /\
        engine (fst st1) = Some (PyEngine e) /\
        managed Blocking (@raise unit boom) (self, w)
        = ((fst st1,
            record (Did (LOGGER_info "Disconnected from database"))
              (record (Did (Engine_dispose e))
                 (record (Did (Session_close s))
                    (snd (fst (@raise unit boom st1)))))),
           snd (@raise unit boom st1))
  end.
Proof.
  intros boom self w.
  exact (managed_block Blocking unit (raise boom) self w (fun st => eq_refl) eq_refl).
Defined.

(** The block of the witness: the body raises, and the session 1 and the
    engine 0 made on entry are released on the way out. *)
Example managed_block_releases_on_error :
  let boom := {| exc_id := 99; exc_class := OSError; exc_msg := "boom";
                 exc_cause := None |} in
  let out := managed Blocking (@raise unit boom) (constructed Blocking (calm [])) in
  snd out = Raise boom /\
  added_since (snd (connected Blocking (calm []))) (snd (fst out))
  = [Did (LOGGER_info "Disconnected from database");
     Did (Engine_dispose 0); Did (Session_close 1)].
Proof.
  split; vm_compute; reflexivity.
Qed.

(** * The rows of execute *)

Lemma with_exit_fails cursor g :
  fails g -> fails (with_exit (fun _ => lib_do (Result_close cursor)) g).
Proof.
  induction 1 as [ e | A m k Hm Hk IH ]; cbn.
  - constructor; [ now apply adds_only_lib_do | intros [[]|x]; constructor ].
  - constructor; [ exact Hm | exact IH ].
Qed.

Lemma with_exit_serves cursor rows g :
  serves rows g -> serves rows (with_exit (fun _ => lib_do (Result_close cursor)) g).
Proof.
  induction 1 as [ rows | rows e | rows A m k Hm Hk IH
                 | row rows k Hnext IHnext Hthrow ]; cbn.
  - constructor; [ now apply adds_only_lib_do | intros [[]|x]; constructor ].
  - constructor; [ now apply adds_only_lib_do | intros [[]|x]; constructor ].
  - constructor; [ exact Hm | exact IH ].
  - constructor; [ exact IHnext | intros e; apply with_exit_fails, Hthrow ].
Qed.

Lemma with_exit_rolls_back conn g :
  fails g ->
  rolls_back conn (with_exit (fun commit => lib_do (Engine_begin_exit conn commit)) g).
Proof.
  induction 1 as [ e | A m k Hm Hk IH ]; cbn.
  - apply rolls_back_exit.
  - apply rolls_back_do; [ exact Hm | exact IH ].
Qed.

Lemma with_exit_settles conn rows g :
  serves rows g ->
  settles conn rows (with_exit (fun commit => lib_do (Engine_begin_exit conn commit)) g).
Proof.
  induction 1 as [ rows | rows e | rows A m k Hm Hk IH
                 | row rows k Hnext IHnext Hthrow ]; cbn.
  - apply settles_commit.
  - apply settles_rollback.
  - apply settles_do; [ exact Hm | exact IH ].
  - apply settles_yield; [ exact IHnext | intros e; apply with_exit_rolls_back, Hthrow ].
Qed.

Lemma yield_rows_serves cursor rows : serves rows (yield_rows cursor rows).
Proof.
  induction rows as [|row rows IH]; cbn.
  - constructor; [ now apply adds_only_lib_call | intros [[]|x]; constructor ].
  - constructor; [ now apply adds_only_lib_call | ].
    intros [[]|x]; [ | constructor ].
    unfold yield. apply serves_yield; [ exact IH | intros e; constructor ].
Qed.

Lemma run_rolls_back conn g :
  rolls_back conn g ->
  forall self w,
  exists w' x added,
    run g (self, w) = ((self, w'), PRaise x) /\
    trace w' = added ++ trace w /\
    scope_log added = [Closed conn false].
Proof.
  induction 1 as [ e | A m k Hm Hk IH ]; intros self w.
  - exists (record (Did (Engine_begin_exit conn false)) w), e,
      [Did (Engine_begin_exit conn false)].
    cbn. repeat split.
  - destruct (adds_only_run _ _ m self w Hm) as (w1 & r & added1 & Em & Ht1 & Hok1 & _).
    destruct (IH r self w1) as (w2 & x & added2 & Er & Ht2 & Hlog).
    exists w2, x, (added2 ++ added1). cbn. rewrite Em, Er.
    split; [ reflexivity | split ].
    + rewrite Ht2, Ht1, app_assoc. reflexivity.
    + rewrite scope_log_app, Hlog, (scope_log_cursor_calls _ Hok1). reflexivity.
Qed.

Lemma run_settles conn rows g :
  settles conn rows g ->
  forall self w,
  exists w' p added,
    run g (self, w) = ((self, w'), p) /\
    trace w' = added ++ trace w /\
    match p with
    | PReturn => scope_log added = [Closed conn true]
    | PRaise _ => scope_log added = [Closed conn false]
    | PYield row k =>
        scope_log added = [] /\
        exists rows',
          rows = row :: rows' /\
          settles conn rows' (k Next) /\
          (forall x, rolls_back conn (k (Throw x)))
    end.
Proof.
  induction 1 as [ rows | rows e | rows A m k Hm Hk IH
                 | row rows k Hnext IHnext Hthrow ]; intros self w.
  - exists (record (Did (Engine_begin_exit conn true)) w), PReturn,
      [Did (Engine_begin_exit conn true)]. cbn. repeat split.
  - exists (record (Did (Engine_begin_exit conn false)) w), (PRaise e),
      [Did (Engine_begin_exit conn false)]. cbn. repeat split.
  - destruct (adds_only_run _ _ m self w Hm) as (w1 & r & added1 & Em & Ht1 & Hok1 & _).
    destruct (IH r self w1) as (w2 & p & added2 & Er & Ht2 & Hp).
    exists w2, p, (added2 ++ added1). cbn. rewrite Em, Er.
    split; [ reflexivity | split ].
    + rewrite Ht2, Ht1, app_assoc. reflexivity.
    + rewrite scope_log_app, (scope_log_cursor_calls _ Hok1), app_nil_r. exact Hp.
  - exists w, (PYield row k), []. cbn.
    split; [ reflexivity | split; [ reflexivity | split; [ reflexivity | ] ] ].
    exists rows. repeat split; assumption.
Qed.

Lemma rows_seen_app l1 l2 : rows_seen (l1 ++ l2) = rows_seen l1 ++ rows_seen l2.
Proof.
  induction l1 as [|[[row| |x]|r] l1 IH]; cbn; rewrite ?IH; reflexivity.
Qed.

Lemma first_end_app l1 l2 :
  first_end (l1 ++ l2)
  = match first_end l1 with Some s => Some s | None => first_end l2 end.
Proof.
  induction l1 as [|[[row| |x]|r] l1 IH]; cbn; rewrite ?IH; reflexivity.
Qed.

Lemma settle_run_settles e total conn seen rest g self w :
  first_end seen = None ->
  total = rows_seen seen ++ rest ->
  settles conn rest g ->
  exists w' gen' p added,
    settle (run g (self, w)) = ((self, w'), gen', p) /\
    trace w' = added ++ trace w /\
    serving e total gen' (seen ++ [SeenNext p]) (scope_log added ++ [Opened e conn]).
Proof.
  intros Hnone Htotal Hnext.
  destruct (run_settles conn rest _ Hnext self w) as (w' & p & added & Er & Ht & Hp).
  rewrite Er.
  destruct p as [ | x | row k' ]; cbn [settle].
  + exists w', Finished, StopIteration, added.
    split; [ reflexivity | split; [ exact Ht | ] ]. rewrite Hp.
    apply (serving_closed e total conn true _ rest (SeenNext StopIteration)).
    * rewrite rows_seen_app, app_nil_r. exact Htotal.
    * rewrite first_end_app, Hnone. reflexivity.
    * split; reflexivity.
  + exists w', Finished, (Raised x), added.
    split; [ reflexivity | split; [ exact Ht | ] ]. rewrite Hp.
    apply (serving_closed e total conn false _ rest (SeenNext (Raised x))).
    * rewrite rows_seen_app, app_nil_r. exact Htotal.
    * rewrite first_end_app, Hnone. reflexivity.
    * split; discriminate.
  + destruct Hp as (Hlog & rows' & -> & Hn & Hth).
    exists w', (Suspended k'), (Yielded row), added.
    split; [ reflexivity | split; [ exact Ht | ] ]. rewrite Hlog.
    apply (serving_suspended e total conn k' _ rows').
    * rewrite first_end_app, Hnone. reflexivity.
    * rewrite rows_seen_app, <- app_assoc. exact Htotal.
    * exact Hn.
    * exact Hth.
Qed.

Lemma next_serving e total gen seen0 log0 self w :
  serving e total gen seen0 log0 ->
  exists w' gen' p added,
    next gen (self, w) = ((self, w'), gen', p) /\
    trace w' = added ++ trace w /\
    serving e total gen' (seen0 ++ [SeenNext p]) (scope_log added ++ log0).
Proof.
  intros Hgen.
  destruct Hgen as [ conn k seen rest Hnone Htotal Hnext Hthrow
                   | seen rest s Htotal Hend Hs
                   | conn commit seen rest s Htotal Hend Hiff ].
  - cbn [next]. now apply (settle_run_settles e total conn seen rest).
  - exists w, Finished, StopIteration, [].
    split; [ reflexivity | split; [ reflexivity | ] ].
    apply (serving_unopened e total _ rest s).
    + rewrite rows_seen_app, app_nil_r. exact Htotal.
    + rewrite first_end_app, Hend. reflexivity.
    + exact Hs.
  - exists w, Finished, StopIteration, [].
    split; [ reflexivity | split; [ reflexivity | ] ].
    apply (serving_closed e total conn commit _ rest s).
    + rewrite rows_seen_app, app_nil_r. exact Htotal.
    + rewrite first_end_app, Hend. reflexivity.
    + exact Hiff.
Qed.

Lemma close_serving e total gen seen0 log0 self w :
  serving e total gen seen0 log0 ->
  exists w' r added,
    close gen (self, w) = ((self, w'), Finished, r) /\
    trace w' = added ++ trace w /\
    serving e total Finished (seen0 ++ [SeenClose r]) (scope_log added ++ log0).
Proof.
  intros Hgen.
  destruct Hgen as [ conn k seen rest Hnone Htotal Hnext Hthrow
                   | seen rest s Htotal Hend Hs
                   | conn commit seen rest s Htotal Hend Hiff ].
  - cbn [close].
    destruct (run_rolls_back conn _
                (Hthrow {| exc_id := next_id w; exc_class := GeneratorExit;
                           exc_msg := ""; exc_cause := None |})
                self (alloc w))
      as (w' & x & added & Er & Ht & Hlog).
    rewrite Er.
    assert (Hclosed : forall r,
              serving e total Finished (seen ++ [SeenClose r])
                (scope_log added ++ [Opened e conn])).
    { intros r. rewrite Hlog.
      apply (serving_closed e total conn false _ rest (SeenClose r)).
      - rewrite rows_seen_app, app_nil_r. exact Htotal.
      - rewrite first_end_app, Hnone. reflexivity.
      - split; discriminate. }
    destruct (isinstance x GeneratorExit).
    + exists w', (Ok tt), added. split; [ reflexivity | split; [ exact Ht | apply Hclosed ] ].
    + exists w', (Raise x), added. split; [ reflexivity | split; [ exact Ht | apply Hclosed ] ].
  - exists w, (Ok tt), [].
    split; [ reflexivity | split; [ reflexivity | ] ].
    apply (serving_unopened e total _ rest s).
    + rewrite rows_seen_app, app_nil_r. exact Htotal.
    + rewrite first_end_app, Hend. reflexivity.
    + exact Hs.
  - exists w, (Ok tt), [].
    split; [ reflexivity | split; [ reflexivity | ] ].
    apply (serving_closed e total conn commit _ rest s).
    + rewrite rows_seen_app, app_nil_r. exact Htotal.
    + rewrite first_end_app, Hend. reflexivity.
    + exact Hiff.
Qed.

Lemma drive_serving e total ops :
  forall gen seen0 log0 self w,
    serving e total gen seen0 log0 ->
    exists w' gen' seen added,
      drive ops gen (self, w) = ((self, w'), gen', seen) /\
      trace w' = added ++ trace w /\
      serving e total gen' (seen0 ++ seen) (scope_log added ++ log0).
Proof.
  induction ops as [|op ops IH]; intros gen seen0 log0 self w Hgen.
  - exists w, gen, [], []. rewrite app_nil_r. repeat split. exact Hgen.
  - destruct op.
    + destruct (next_serving e total gen seen0 log0 self w Hgen)
        as (w1 & gen1 & p & added1 & En & Ht1 & Hgen1).
      destruct (IH gen1 _ _ self w1 Hgen1)
        as (w2 & gen2 & seen & added2 & Ed & Ht2 & Hgen2).
      exists w2, gen2, (SeenNext p :: seen), (added2 ++ added1).
      cbn [drive]. rewrite En, Ed.
      split; [ reflexivity | split ].
      * rewrite Ht2, Ht1, app_assoc. reflexivity.
      * rewrite scope_log_app, <- !app_assoc in *. exact Hgen2.
    + destruct (close_serving e total gen seen0 log0 self w Hgen)
        as (w1 & r & added1 & Ec & Ht1 & Hgen1).
      destruct (IH Finished _ _ self w1 Hgen1)
        as (w2 & gen2 & seen & added2 & Ed & Ht2 & Hgen2).
      exists w2, gen2, (SeenClose r :: seen), (added2 ++ added1).
      cbn [drive]. rewrite Ec, Ed.
      split; [ reflexivity | split ].
      * rewrite Ht2, Ht1, app_assoc. reflexivity.
      * rewrite scope_log_app, <- !app_assoc in *. exact Hgen2.
Qed.

(** The first [next] on a generator made by [execute]. *)
Lemma start_serving v query e self w :
  engine self = Some (PyEngine e) ->
  exists w' gen' p added,
    next (execute_of v query) (self, w) = ((self, w'), gen', p) /\
    trace w' = added ++ trace w /\
    serving e (cursor_rows w e query) gen' [SeenNext p] (scope_log added).
Proof.
  intros He.
  destruct v; unfold execute_of, Boilerplate.execute, AsyncBoilerplate.execute,
    Boilerplate.execute_body, AsyncBoilerplate.execute_body, gwith.
  all: cbn [next run]; unfold bind, getattr, call_begin; rewrite He.
  all: unfold lib_new, lib_raise_or.
  all: destruct (lib_raises w (Engine_begin e) (trace w)) as [[cls msg]|] eqn:Ebegin.
  - eexists _, Finished, (Raised _), [Threw (Engine_begin e) _]. cbn.
    split; [ reflexivity | split; [ reflexivity | ] ].
    eapply (serving_unopened e _ _ (cursor_rows w e query)); [ reflexivity | reflexivity | discriminate ].
  - cbn [run with_exit]. unfold open_cursor, lib_raise_or.
    cbn [lib_raises lib_rows record alloc trace next_id].
    destruct (lib_raises w (Connection_execute (next_id w) query)
                (Made (Engine_begin e) (next_id w) :: trace w)) as [[cls msg]|] eqn:Ecursor.
    + eexists _, Finished, (Raised _),
        [Did (Engine_begin_exit (next_id w) false);
         Threw (Connection_execute (next_id w) query) _;
         Made (Engine_begin e) (next_id w)].
      cbn. split; [ reflexivity | split; [ reflexivity | ] ].
      eapply (serving_closed e _ _ false _ (cursor_rows w e query));
        [ reflexivity | reflexivity | split; discriminate ].
    + cbn [fst snd].
      destruct (settle_run_settles e (cursor_rows w e query) (next_id w) []
                  (cursor_rows w e query) _ self
                  (record (Made (Connection_execute (next_id w) query) (S (next_id w)))
                     (alloc (record (Made (Engine_begin e) (next_id w)) (alloc w))))
                  eq_refl eq_refl
                  (with_exit_settles (next_id w) _ _
                     (with_exit_serves (S (next_id w)) _ _
                        (yield_rows_serves (S (next_id w)) (cursor_rows w e query)))))
        as (w' & gen' & p & added & Er & Ht & Hgen).
      exists w', gen', p,
        (added ++ [Made (Connection_execute (next_id w) query) (S (next_id w));
                   Made (Engine_begin e) (next_id w)]).
      split; [ exact Er | split ].
      * rewrite Ht, <- app_assoc. reflexivity.
      * rewrite scope_log_app. exact Hgen.
  - eexists _, Finished, (Raised _), [Threw (Engine_begin e) _]. cbn.
    split; [ reflexivity | split; [ reflexivity | ] ].
    eapply (serving_unopened e _ _ (cursor_rows w e query)); [ reflexivity | reflexivity | discriminate ].
  - cbn [run with_exit]. unfold open_cursor, lib_raise_or.
    cbn [lib_raises lib_rows record alloc trace next_id].
    destruct (lib_raises w (Connection_stream (next_id w) query)
                (Made (Engine_begin e) (next_id w) :: trace w)) as [[cls msg]|] eqn:Ecursor.
    + eexists _, Finished, (Raised _),
        [Did (Engine_begin_exit (next_id w) false);
         Threw (Connection_stream (next_id w) query) _;
         Made (Engine_begin e) (next_id w)].
      cbn. split; [ reflexivity | split; [ reflexivity | ] ].
      eapply (serving_closed e _ _ false _ (cursor_rows w e query));
        [ reflexivity | reflexivity | split; discriminate ].
    + cbn [fst snd].
      destruct (settle_run_settles e (cursor_rows w e query) (next_id w) []
                  (cursor_rows w e query) _ self
                  (record (Made (Connection_stream (next_id w) query) (S (next_id w)))
                     (alloc (record (Made (Engine_begin e) (next_id w)) (alloc w))))
                  eq_refl eq_refl
                  (with_exit_settles (next_id w) _ _
                     (yield_rows_serves (S (next_id w)) (cursor_rows w e query))))
        as (w' & gen' & p & added & Er & Ht & Hgen).
      exists w', gen', p,
        (added ++ [Made (Connection_stream (next_id w) query) (S (next_id w));
                   Made (Engine_begin e) (next_id w)]).
      split; [ exact Er | split ].
      * rewrite Ht, <- app_assoc. reflexivity.
      * rewrite scope_log_app. exact Hgen.
Qed.

Lemma drive_execute_serving v query e op ops self w :
  engine self = Some (PyEngine e) ->
  exists w' gen' seen added,
    drive (op :: ops) (execute_of v query) (self, w) = ((self, w'), gen', seen) /\
    trace w' = added ++ trace w /\
    serving e (cursor_rows w e query) gen' seen (scope_log added).
Proof.
  intros He. destruct op.
  - destruct (start_serving v query e self w He)
      as (w1 & gen1 & p & added1 & En & Ht1 & Hgen1).
    destruct (drive_serving e _ ops gen1 _ _ self w1 Hgen1)
      as (w2 & gen2 & seen & added2 & Ed & Ht2 & Hgen2).
    exists w2, gen2, (SeenNext p :: seen), (added2 ++ added1).
    cbn [drive]. rewrite En, Ed.
    split; [ reflexivity | split ].
    + rewrite Ht2, Ht1, app_assoc. reflexivity.
    + rewrite scope_log_app. exact Hgen2.
  - assert (Hgen1 : serving e (cursor_rows w e query) Finished [SeenClose (Ok tt)] []).
    { apply (serving_unopened e _ _ (cursor_rows w e query) (SeenClose (Ok tt)));
        [ reflexivity | reflexivity | discriminate ]. }
    destruct (drive_serving e _ ops Finished _ _ self w Hgen1)
      as (w2 & gen2 & seen & added2 & Ed & Ht2 & Hgen2).
    exists w2, gen2, (SeenClose (Ok tt) :: seen), added2.
    assert (Ec : close (execute_of v query) (self, w) = ((self, w), Finished, Ok tt))
      by (destruct v; reflexivity).
    cbn [drive]. rewrite Ec, Ed.
    split; [ reflexivity | split; [ exact Ht2 | ] ].
    rewrite app_nil_r in Hgen2. exact Hgen2.
Qed.

(** X9: whatever the library does and whatever the consumer does with the
    generator of [execute], the rows it receives are, in order and without
    a gap or a repetition, the first rows of the cursor that the query
    opened. *)
Theorem rows_seen_are_the_first_rows_of_the_cursor :
  forall v query self w e ops,
    engine self = Some (PyEngine e) ->
    exists rest,
      cursor_rows w e query
      = rows_seen (snd (drive ops (execute_of v query) (self, w))) ++ rest.
Proof.
  intros v query self w e [|op ops] He.
  - exists (cursor_rows w e query). reflexivity.
  - destruct (drive_execute_serving v query e op ops self w He)
      as (w' & gen' & seen & added & Ed & _ & Hgen).
    rewrite Ed. cbn [snd].
    inversion Hgen; subst; eexists; eassumption.
Qed.

Lemma rows_seen_are_the_first_rows_of_the_cursor_witness :
  exists rest,
    cursor_rows (snd (connected Blocking (breaks_after_first_row [["a"]; ["b"]]))) 0 "q"
    = rows_seen (snd (drive [DoNext; DoNext; DoNext] (execute_of Blocking "q")
                        (fst (connected Blocking (breaks_after_first_row [["a"]; ["b"]])),
                         snd (connected Blocking (breaks_after_first_row [["a"]; ["b"]])))))
      ++ rest.
Proof.
  apply (rows_seen_are_the_first_rows_of_the_cursor Blocking "q"
           (fst (connected Blocking (breaks_after_first_row [["a"]; ["b"]])))
           (snd (connected Blocking (breaks_after_first_row [["a"]; ["b"]])))
           0 [DoNext; DoNext; DoNext]).
  vm_compute. reflexivity.
Defined.

(** X10: how the scope of [execute] is left.  Until the consumer has seen
    something other than a row the generator has not ended and no scope
    has been closed.  When the first such thing is [StopIteration], the scope
    was opened and has been closed with a commit.  When it is an exception
    or the consumer's [close()], the scope, if it was opened, has been
    closed without one. *)
Theorem execute_commits_when_exhausted_only :
  forall v query self w e ops,
    engine self = Some (PyEngine e) ->
    exists w' gen' seen added,
      drive ops (execute_of v query) (self, w) = ((self, w'), gen', seen) /\
      trace w' = added ++ trace w /\
      match first_end seen with
      | None =>
          gen' <> Finished /\
          (scope_log added = [] \/ exists conn, scope_log added = [Opened e conn])
      | Some (SeenNext StopIteration) =>
          gen' = Finished /\
          exists conn, scope_log added = [Closed conn true; Opened e conn]
      | Some _ =>
          gen' = Finished /\
          (scope_log added = [] \/
           exists conn, scope_log added = [Closed conn false; Opened e conn])
      end.
Proof.
  intros v query self w e [|op ops] He.
  - exists w, (execute_of v query), [], [].
    split; [ reflexivity | split; [ reflexivity | ] ].
    cbn. split; [ destruct v; discriminate | left; reflexivity ].
  - destruct (drive_execute_serving v query e op ops self w He)
      as (w' & gen' & seen & added & Ed & Ht & Hgen).
    exists w', gen', seen, added.
    split; [ exact Ed | split; [ exact Ht | ] ].
    inversion Hgen as [ conn k seen' rest Hnone Htotal Hnext Hthrow
                      | seen' rest s Htotal Hend Hs
                      | conn commit seen' rest s Htotal Hend Hiff ]; subst.
    + rewrite Hnone. split; [ discriminate | right; exists conn; reflexivity ].
    + rewrite Hend.
      destruct s as [[row| |x]|r]; try (split; [ reflexivity | left; reflexivity ]).
      contradiction Hs. reflexivity.
    + rewrite Hend.
      destruct s as [[row| |x]|r].
      * destruct commit.
        -- destruct Hiff as [Hiff _]. discriminate (Hiff eq_refl).
        -- split; [ reflexivity | right; exists conn; reflexivity ].
      * destruct Hiff as [_ Hiff]. rewrite (Hiff eq_refl).
        split; [ reflexivity | exists conn; reflexivity ].
      * destruct commit.
        -- destruct Hiff as [Hiff _]. discriminate (Hiff eq_refl).
        -- split; [ reflexivity | right; exists conn; reflexivity ].
      * destruct commit.
        -- destruct Hiff as [Hiff _]. discriminate (Hiff eq_refl).
        -- split; [ reflexivity | right; exists conn; reflexivity ].
Qed.

Lemma execute_commits_when_exhausted_only_witness :
  exists w' gen' seen added,
    drive [DoNext; DoClose] (execute_of NonBlocking "q")
      (fst (connected NonBlocking (calm [["a"]; ["b"]])),
       snd (connected NonBlocking (calm [["a"]; ["b"]])))
    = ((fst (connected NonBlocking (calm [["a"]; ["b"]])), w'), gen', seen) /\
    trace w' = added ++ trace (snd (connected NonBlocking (calm [["a"]; ["b"]]))) /\
    match first_end seen with
    | None =>
        gen' <> Finished /\
        (scope_log added = [] \/ exists conn, scope_log added = [Opened 0 conn])
    | Some (SeenNext StopIteration) =>
        gen' = Finished /\
        exists conn, scope_log added = [Closed conn true; Opened 0 conn]
    | Some _ =>
        gen' = Finished /\
        (scope_log added = [] \/
         exists conn, scope_log added = [Closed conn false; Opened 0 conn])
    end.
Proof.
  apply (execute_commits_when_exhausted_only NonBlocking "q"
           (fst (connected NonBlocking (calm [["a"]; ["b"]])))
           (snd (connected NonBlocking (calm [["a"]; ["b"]])))
           0 [DoNext; DoClose]).
  vm_compute. reflexivity.
Defined.

(** The consumer that closes after the first of two rows: the scope is
    rolled back. *)
Example execute_closed_early_rolls_back :
  let out := drive [DoNext; DoClose] (AsyncBoilerplate.execute "q")
               (connected NonBlocking (calm [["a"]; ["b"]])) in
  snd out = [SeenNext (Yielded ["a"]); SeenClose (Ok tt)] /\
  scope_log (added_since (snd (connected NonBlocking (calm [["a"]; ["b"]])))
               (snd (fst (fst out))))
  = [Closed 3 false; Opened 0 3].
Proof. vm_compute. split; reflexivity. Qed.

Lemma repeat_app_cons A (x : A) n l : repeat x n ++ x :: l = repeat x (S n) ++ l.
Proof.
  induction n as [|n IH]; cbn.
  - reflexivity.
  - rewrite IH. reflexivity.
Qed.

Lemma drive_created_run ops body st body' st' :
  run body st = run body' st' ->
  drive (DoNext :: ops) (Created body) st = drive (DoNext :: ops) (Created body') st'.
Proof. intros H. cbn [drive next]. rewrite H. reflexivity. Qed.

(** Inside the scope of [conn], with the cursor open and a library that
    never fails: every row is yielded, then the cursor and the scope are
    left. *)
Lemma drive_yield_rows v conn cursor rows :
  forall self w,
    never_fails w ->
    exists w',
      drive (repeat DoNext (S (length rows)))
        (Created
           (with_exit (fun commit => lib_do (Engine_begin_exit conn commit))
              match v with
              | Blocking =>
                  with_exit (fun _ => lib_do (Result_close cursor))
                    (yield_rows cursor rows)
              | NonBlocking => yield_rows cursor rows
              end))
        (self, w)
      = ((self, w'), Finished, all_rows rows) /\
      trace w'
      = [Did (Engine_begin_exit conn true)]
        ++ (match v with Blocking => [Did (Result_close cursor)] | NonBlocking => [] end)
        ++ repeat (Did (Result_next cursor)) (S (length rows))
        ++ trace w.
Proof.
  induction rows as [|row rows IH]; intros self w Hnf.
  - destruct v; cbn; unfold lib_call, lib_raise_or; rewrite Hnf; cbn;
      eexists; split; reflexivity.
  - destruct (IH self (record (Did (Result_next cursor)) w)) as (w' & Ed & Ht).
    { intros c t. apply Hnf. }
    exists w'. split.
    + change (repeat DoNext (S (length (row :: rows))))
        with (DoNext :: repeat DoNext (S (length rows))).
      cbn [drive next]. cbn [repeat drive next] in Ed.
      destruct v; cbn [yield_rows with_exit run]; unfold lib_call, lib_raise_or;
        rewrite Hnf; cbn [lib_do run yield with_exit settle];
        cbn [lib_do run yield with_exit settle] in Ed.
      all: cbn [repeat drive next]; rewrite Ed; reflexivity.
    + rewrite Ht. cbn [trace record length].
      rewrite (repeat_app_cons _ (Did (Result_next cursor)) (S (length rows))).
      reflexivity.
Qed.

(** A generator of [execute] that is exhausted, with a library that never
    fails. *)
Lemma drive_execute_exhausted :
  forall v query self w e,
    engine self = Some (PyEngine e) ->
    never_fails w ->
    let rows := cursor_rows w e query in
    exists w',
      drive (repeat DoNext (S (length rows))) (execute_of v query) (self, w)
      = ((self, w'), Finished, all_rows rows) /\
      trace w'
      = exhausted_events v e (next_id w) (S (next_id w)) query (length rows) ++ trace w.
Proof.
  intros v query self w e He Hnf rows.
  destruct (drive_yield_rows v (next_id w) (S (next_id w)) rows self
              (record (Made (cursor_of v (next_id w) query) (S (next_id w)))
                 (alloc (record (Made (Engine_begin e) (next_id w)) (alloc w)))))
    as (w' & Ed & Ht).
  { intros c t. apply Hnf. }
  exists w'. split.
  - rewrite <- Ed.
    change (repeat DoNext (S (length rows))) with (DoNext :: repeat DoNext (length rows)).
    destruct v; unfold execute_of, Boilerplate.execute, AsyncBoilerplate.execute.
    all: apply drive_created_run.
    all: unfold Boilerplate.execute_body, AsyncBoilerplate.execute_body, gwith.
    all: cbn [run]; unfold bind, getattr, call_begin; rewrite He.
    all: unfold lib_new, lib_raise_or; rewrite Hnf.
    all: cbn [run with_exit]; unfold open_cursor, lib_raise_or.
    all: cbn [lib_raises lib_rows record alloc trace next_id].
    all: rewrite Hnf; reflexivity.
  - rewrite Ht. unfold exhausted_events. cbn [trace record alloc].
    rewrite <- !app_assoc. reflexivity.
Qed.

(** X11: with a library that never fails, a consumer that keeps asking
    receives every row of the cursor, in order, then [StopIteration].  The
    calls made are: the scope opened on the engine, the query executed on
    its connection, one fetch per row and one more that finds the end, the
    cursor closed (by [Boilerplate.execute] only: [AsyncBoilerplate.execute]
    never closes its stream), and the scope closed with a commit;
    [execution_options] only configures the connection and is not counted
    as a call.  The instance is left as it was. *)
Theorem execute_delivers_every_row :
  forall v query self w e,
    engine self = Some (PyEngine e) ->
    never_fails w ->
    let rows := cursor_rows w e query in
    exists w',
      drive (repeat DoNext (S (length rows))) (execute_of v query) (self, w)
      = ((self, w'), Finished, all_rows rows) /\
      trace w'
      = exhausted_events v e (next_id w) (S (next_id w)) query (length rows) ++ trace w.
Proof. exact drive_execute_exhausted. Qed.

Lemma execute_delivers_every_row_witness :
  exists w',
    drive (repeat DoNext
             (S (length (cursor_rows (snd (connected Blocking (calm [["a"]; ["b"]]))) 0 "q"))))
      (execute_of Blocking "q")
      (fst (connected Blocking (calm [["a"]; ["b"]])),
       snd (connected Blocking (calm [["a"]; ["b"]])))
    = ((fst (connected Blocking (calm [["a"]; ["b"]])), w'), Finished,
       all_rows (cursor_rows (snd (connected Blocking (calm [["a"]; ["b"]]))) 0 "q")) /\
    trace w'
    = exhausted_events Blocking 0
        (next_id (snd (connected Blocking (calm [["a"]; ["b"]]))))
        (S (next_id (snd (connected Blocking (calm [["a"]; ["b"]])))))
        "q"
        (length (cursor_rows (snd (connected Blocking (calm [["a"]; ["b"]]))) 0 "q"))
      ++ trace (snd (connected Blocking (calm [["a"]; ["b"]]))).
Proof.
  apply (execute_delivers_every_row Blocking "q"
           (fst (connected Blocking (calm [["a"]; ["b"]])))
           (snd (connected Blocking (calm [["a"]; ["b"]]))) 0).
  - vm_compute. reflexivity.
  - intros c t. reflexivity.
Defined.

(** The rows of the tests' query come back, and the stream of the
    non-blocking class is never closed. *)
Example execute_delivers_two_rows :
  let out := drive [DoNext; DoNext; DoNext] (AsyncBoilerplate.execute "q")
               (connected NonBlocking (calm [["a"]; ["b"]])) in
  snd out = [SeenNext (Yielded ["a"]); SeenNext (Yielded ["b"]); SeenNext StopIteration] /\
  added_since (snd (connected NonBlocking (calm [["a"]; ["b"]]))) (snd (fst (fst out)))
  = [Did (Engine_begin_exit 3 true);
     Did (Result_next 4); Did (Result_next 4); Did (Result_next 4);
     Made (Connection_stream 3 "q") 4; Made (Engine_begin 0) 3].
Proof. vm_compute. split; reflexivity. Qed.

(** * Construct, call, execute *)

(** X12: the instance called as a function, as the tests do.  On an
    instance constructed without a session of the caller's, with a library
    that never fails, the call returns and leaves an engine in [engine];
    calling the instance again changes nothing and makes no call; and the
    generator of [execute] then delivers every row of its cursor. *)
Theorem call_then_execute :
  forall v u echo create_tables w self1 w1 query,
    init_of v u echo create_tables (ArgBool false) (no_attributes, w)
    = ((self1, w1), Ok tt) ->
    never_fails w ->
    exists self2 w2,
      call_of v (self1, w1) = ((self2, w2), Ok tt) /\
      engine self2 = Some (PyEngine (next_id w)) /\
      call_of v (self2, w2) = ((self2, w2), Ok tt) /\
      exists w3,
        drive (repeat DoNext (S (length (cursor_rows w2 (next_id w) query))))
          (execute_of v query) (self2, w2)
        = ((self2, w3), Finished, all_rows (cursor_rows w2 (next_id w) query)).
Proof.
  intros v u echo ct w self1 w1 query Hinit Hnf.
  destruct (init_returns v u echo ct (ArgBool false) w self1 w1 Hinit)
    as (-> & Hct & Hs & He & (stored & Hu & _) & Hkw).
  destruct self1 as [ct1 kw1 u1 sess1 eng1]. cbn in Hct, Hs, He, Hu, Hkw.
  subst ct1 sess1 eng1 u1 kw1.
  assert (Hcall : exists self2 w2,
            call_of v ({| __create_tables := Some ct;
                          __engine_kwargs := Some (if (lower (scheme (parsed u)) =? "postgresql")%string
                                                   then initial_kwargs echo else sqlite_kwargs echo);
                          url := Some stored; session := Some (PyBool false);
                          engine := Some (no_engine v) |}, w) = ((self2, w2), Ok tt) /\
            engine self2 = Some (PyEngine (next_id w)) /\
            call_of v (self2, w2) = ((self2, w2), Ok tt) /\
            never_fails w2).
  { destruct v; cbn [call_of]; unfold Boilerplate.__call__, AsyncBoilerplate.__call__;
      unfold_connect; cbn;
      repeat (rewrite Hnf; cbn);
      destruct ct; cbn;
      repeat (rewrite Hnf; cbn);
      do 2 eexists; (split; [ reflexivity | ]); cbn;
      (split; [ reflexivity | ]); (split; [ reflexivity | ]);
      intros c t; apply Hnf. }
  destruct Hcall as (self2 & w2 & Hc1 & He2 & Hc2 & Hnf2).
  exists self2, w2.
  split; [ exact Hc1 | split; [ exact He2 | split; [ exact Hc2 | ] ] ].
  destruct (drive_execute_exhausted v query self2 w2 (next_id w) He2 Hnf2) as (w3 & Hd & _).
  exists w3. exact Hd.
Qed.

(** X12 on the instance of the tests. *)
Lemma call_then_execute_witness :
  exists self2 w2,
    call_of Blocking (constructed Blocking (calm [["1982-10-26"]]))
    = ((self2, w2), Ok tt) /\
    engine self2 = Some (PyEngine (next_id (calm [["1982-10-26"]]))) /\
    call_of Blocking (self2, w2) = ((self2, w2), Ok tt) /\
    exists w3,
      drive (repeat DoNext
               (S (length (cursor_rows w2 (next_id (calm [["1982-10-26"]])) "SELECT 1"))))
        (execute_of Blocking "SELECT 1") (self2, w2)
      = ((self2, w3), Finished,
         all_rows (cursor_rows w2 (next_id (calm [["1982-10-26"]])) "SELECT 1")).
Proof.
  apply (call_then_execute Blocking "sqlite://" false true (calm [["1982-10-26"]])
           (fst (constructed Blocking (calm [["1982-10-26"]])))
           (snd (constructed Blocking (calm [["1982-10-26"]])))
           "SELECT 1").
  - vm_compute. reflexivity.
  - intros c t. reflexivity.
Defined.

(** X13: [execute] after the [with] block, as the test of [Boilerplate]
    does.  When the block has returned, [engine] still holds the engine
    that [__exit__] disposed of, and a generator of [execute] opens its
    scope on that engine: with a library that never fails it delivers every
    row of the cursor. *)
Theorem execute_after_the_block :
  forall v A (body : M A) self w st2 a query,
    (forall st, fst (fst (body st)) = fst st) ->
    session self = Some (PyBool false) ->
    managed v body (self, w) = (st2, Ok a) ->
    never_fails (snd st2) ->
    exists e w3,
      engine (fst st2) = Some (PyEngine e) /\
      In (Did (Engine_dispose e)) (trace (snd st2)) /\
      let rows := cursor_rows (snd st2) e query in
      drive (repeat DoNext (S (length rows))) (execute_of v query) st2
      = ((fst st2, w3), Finished, all_rows rows) /\
      trace w3
      = exhausted_events v e (next_id (snd st2)) (S (next_id (snd st2))) query
          (length rows)
        ++ trace (snd st2).
Proof.
  intros v A body self w st2 a query Hbody Hs Hm Hnf.
  pose proof (managed_outcome v A body self w Hbody Hs) as H.
  destruct (connect_of v false (self, w)) as [st1 [r | x]].
  - destruct H as (s & e & _ & He & H). rewrite H in Hm.
    injection Hm as <- Ha.
    cbn [fst snd] in *.
    destruct (drive_execute_exhausted v query (fst st1) _ e He Hnf) as (w3 & Hd & Ht).
    exists e, w3.
    split; [ exact He | split; [ right; left; reflexivity | ] ].
    split; [ exact Hd | exact Ht ].
  - rewrite H in Hm. discriminate Hm.
Qed.

(** X13 on the instance of the tests, with a body that does nothing. *)
Lemma execute_after_the_block_witness :
  let st2 := fst (managed Blocking (ret tt) (constructed Blocking (calm [["1982-10-26"]]))) in
  exists e w3,
    engine (fst st2) = Some (PyEngine e) /\
    In (Did (Engine_dispose e)) (trace (snd st2)) /\
    drive (repeat DoNext (S (length (cursor_rows (snd st2) e "SELECT 1"))))
      (execute_of Blocking "SELECT 1") st2
    = ((fst st2, w3), Finished, all_rows (cursor_rows (snd st2) e "SELECT 1")) /\
    trace w3
    = exhausted_events Blocking e (next_id (snd st2)) (S (next_id (snd st2))) "SELECT 1"
        (length (cursor_rows (snd st2) e "SELECT 1"))
      ++ trace (snd st2).
Proof.
  intros st2.
  apply (execute_after_the_block Blocking unit (ret tt)
           (fst (constructed Blocking (calm [["1982-10-26"]])))
           (snd (constructed Blocking (calm [["1982-10-26"]])))
           st2 tt "SELECT 1").
  - intros st. reflexivity.
  - vm_compute. reflexivity.
  - vm_compute. reflexivity.
  - intros c t. reflexivity.
Defined.

(** * The URL of the non-blocking class *)

Lemma all_chars_remove_unsafe p s :
  all_chars p s = true -> all_chars p (remove_unsafe s) = true.
Proof.
  induction s as [|c s IH]; cbn; [ reflexivity | ].
  intros H. apply andb_true_iff in H. destruct H as [Hc Hs].
  destruct ((code c =? 9) || (code c =? 13) || (code c =? 10)); cbn.
  - apply IH, Hs.
  - rewrite Hc. apply IH, Hs.
Qed.

Lemma all_chars_up_to_delimiter p s :
  all_chars p s = true -> all_chars p (up_to_delimiter s) = true.
Proof.
  induction s as [|c s IH]; cbn; [ reflexivity | ].
  intros H. apply andb_true_iff in H. destruct H as [Hc Hs].
  destruct ((code c =? 47) || (code c =? 63) || (code c =? 35)); cbn.
  - reflexivity.
  - rewrite Hc. apply IH, Hs.
Qed.

Lemma plain_netloc s :
  all_chars plain s = true ->
  contains 91 s = false /\ contains 93 s = false /\ isascii s = true.
Proof.
  unfold isascii.
  induction s as [|c s IH]; [ repeat split | ].
  cbn [all_chars contains]. intros H.
  apply andb_true_iff in H. destruct H as [Hc Hs].
  destruct (IH Hs) as (H1 & H2 & H3). rewrite H1, H2, H3.
  unfold plain in Hc.
  apply andb_true_iff in Hc. destruct Hc as [Hc H93].
  apply andb_true_iff in Hc. destruct Hc as [H128 H91].
  apply negb_true_iff in H91, H93. rewrite H91, H93, H128. repeat split.
Qed.

(** [urlparse] never refuses a netloc of plain characters. *)
Lemma plain_netloc_is_valid w s :
  all_chars plain s = true ->
  (let netloc := up_to_delimiter (remove_unsafe s) in
   let opens := contains 91 netloc in
   let closes := contains 93 netloc in
   if xorb opens closes then Some "Invalid IPv6 URL"
   else if opens || negb (isascii netloc) then lib_netloc_error w netloc
   else None) = None.
Proof.
  intros H.
  destruct (plain_netloc _ (all_chars_up_to_delimiter _ _ (all_chars_remove_unsafe _ _ H)))
    as (H1 & H2 & H3).
  cbv zeta. rewrite H1, H2, H3. reflexivity.
Qed.

(** X14: on a URL written [sqlite://...] or [postgresql://...] in ASCII
    characters other than brackets, with a session argument other than
    [True], [AsyncBoilerplate.__init__] returns and stores the URL with the
    asynchronous driver in its scheme and the rest as it was given,
    together with the engine options of that database. *)
Theorem async_url_names_the_driver :
  forall rest echo create_tables sess w,
    all_chars plain rest = true ->
    sess <> ArgBool true ->
    (exists self',
       AsyncBoilerplate.__init__ ("sqlite://" ++ rest) echo create_tables sess
         (no_attributes, w) = ((self', w), Ok tt) /\
       url self' = Some ("sqlite+aiosqlite://" ++ rest)%string /\
       __engine_kwargs self' = Some (sqlite_kwargs echo)) /\
    (exists self',
       AsyncBoilerplate.__init__ ("postgresql://" ++ rest) echo create_tables sess
         (no_attributes, w) = ((self', w), Ok tt) /\
       url self' = Some ("postgresql+asyncpg://" ++ rest)%string /\
       __engine_kwargs self' = Some (initial_kwargs echo)).
Proof.
  intros rest echo ct sess w Hplain Hsess.
  assert (Hsqlite : invalid_url w ("sqlite://" ++ rest) = None)
    by exact (plain_netloc_is_valid w rest Hplain).
  assert (Hpostgresql : invalid_url w ("postgresql://" ++ rest) = None)
    by exact (plain_netloc_is_valid w rest Hplain).
  split; unfold_init; rewrite ?Hsqlite, ?Hpostgresql.
  all: destruct sess as [[|]|s]; [ now elim Hsess | | ].
  all: eexists; (split; [ reflexivity | split; reflexivity ]).
Qed.

(** X14 on the URL of the tests. *)
Lemma async_url_names_the_driver_witness :
  exists self',
    AsyncBoilerplate.__init__ "sqlite://" false true (ArgBool false)
      (no_attributes, calm []) = ((self', calm []), Ok tt) /\
    url self' = Some "sqlite+aiosqlite://" /\
    __engine_kwargs self' = Some (sqlite_kwargs false).
Proof.
  destruct (async_url_names_the_driver "" false true (ArgBool false) (calm []))
    as [H _].
  - reflexivity.
  - discriminate.
  - exact H.
Defined.
